(** * lcd-mod: a character LCD (HD44780, 4-bit bus) driven over GPIO lines

    Shallow embedding of [lcd-mod.c].  The driver is a sequence of calls
    into the kernel (gpiolib, the device model, delays, a spinlock); every
    driver function is a computation in a state monad over the driver's
    global [lcd] and a model of the kernel objects it touches, and every
    kernel call is recorded in a log. *)

From stdpp Require Import gmap strings list fin_maps.
From Stdlib Require Import ZArith Lia.

Local Open Scope Z_scope.

(** ** Kernel calls, as events *)

Inductive event : Type :=
  | Printk (msg : string)
  | RegisterChrdev (major : Z) (name : string) (res : Z)
  | UnregisterChrdev (major : Z) (name : string)
  | ClassCreate (name : string) (res : Z)
  | ClassDestroy (cls : Z)
  | DeviceCreate (cls devt : Z) (name : string) (res : Z)
  | DeviceDestroy (cls devt : Z)
  | GpioRequest (line : Z) (label : string) (res : Z)
  | GpioFree (line : Z)
  | GpioDirectionOutput (line value : Z)
  | GpioSetValue (line value : Z)
  | Udelay (usecs : Z)
  | Mdelay (msecs : Z)
  | SpinLockInit
  | SpinLock
  | SpinUnlock.

Inductive direction : Type := DirIn | DirOut.

(** ** State *)

(** [spinlock_t]: whether [spin_lock_init] has run on it, and whether it is
    taken. *)
Record spinlock : Type := { initialised : bool; locked : bool }.

(** [struct lcd_data] and the global [lcd] of the driver. *)
Record lcd_data : Type := { lcd_mjr : Z; lcd_class : Z; lock : spinlock }.

(** What the kernel answers to the three registration calls of module init:
    the major number (or negative errno) of [register_chrdev], and the
    pointers (or [ERR_PTR]s) of [class_create] and [device_create], as
    signed machine words. *)
Record host : Type := { chrdev_ret : Z; class_ret : Z; device_ret : Z }.

Record state : Type := {
  lcd : lcd_data;
  chrdevs : gmap Z string;          (* major -> registered name *)
  classes : gmap Z bool;            (* class -> devnode callback is lcd_devnode *)
  devnodes : gmap Z (string * Z);   (* dev_t -> node name, mode *)
  gpio_label : gmap Z string;       (* requested line -> label of its owner *)
  gpio_dir : gmap Z direction;
  gpio_level : gmap Z bool;
  clock : Z;                        (* microseconds waited so far *)
  log : list event;                 (* kernel calls made so far, newest first *)
  env : host
}.

Definition set_lcd (f : lcd_data → lcd_data) (s : state) : state :=
  {| lcd := f (lcd s); chrdevs := chrdevs s; classes := classes s;
     devnodes := devnodes s; gpio_label := gpio_label s;
     gpio_dir := gpio_dir s; gpio_level := gpio_level s; clock := clock s;
     log := log s; env := env s |}.

Definition set_chrdevs (f : gmap Z string → gmap Z string) (s : state) : state :=
  {| lcd := lcd s; chrdevs := f (chrdevs s); classes := classes s;
     devnodes := devnodes s; gpio_label := gpio_label s;
     gpio_dir := gpio_dir s; gpio_level := gpio_level s; clock := clock s;
     log := log s; env := env s |}.

Definition set_classes (f : gmap Z bool → gmap Z bool) (s : state) : state :=
  {| lcd := lcd s; chrdevs := chrdevs s; classes := f (classes s);
     devnodes := devnodes s; gpio_label := gpio_label s;
     gpio_dir := gpio_dir s; gpio_level := gpio_level s; clock := clock s;
     log := log s; env := env s |}.

Definition set_devnodes (f : gmap Z (string * Z) → gmap Z (string * Z))
    (s : state) : state :=
  {| lcd := lcd s; chrdevs := chrdevs s; classes := classes s;
     devnodes := f (devnodes s); gpio_label := gpio_label s;
     gpio_dir := gpio_dir s; gpio_level := gpio_level s; clock := clock s;
     log := log s; env := env s |}.

Definition set_gpio_label (f : gmap Z string → gmap Z string) (s : state) : state :=
  {| lcd := lcd s; chrdevs := chrdevs s; classes := classes s;
     devnodes := devnodes s; gpio_label := f (gpio_label s);
     gpio_dir := gpio_dir s; gpio_level := gpio_level s; clock := clock s;
     log := log s; env := env s |}.

Definition set_gpio_dir (f : gmap Z direction → gmap Z direction) (s : state) : state :=
  {| lcd := lcd s; chrdevs := chrdevs s; classes := classes s;
     devnodes := devnodes s; gpio_label := gpio_label s;
     gpio_dir := f (gpio_dir s); gpio_level := gpio_level s; clock := clock s;
     log := log s; env := env s |}.

Definition set_gpio_level (f : gmap Z bool → gmap Z bool) (s : state) : state :=
  {| lcd := lcd s; chrdevs := chrdevs s; classes := classes s;
     devnodes := devnodes s; gpio_label := gpio_label s;
     gpio_dir := gpio_dir s; gpio_level := f (gpio_level s); clock := clock s;
     log := log s; env := env s |}.

Definition tick (us : Z) (s : state) : state :=
  {| lcd := lcd s; chrdevs := chrdevs s; classes := classes s;
     devnodes := devnodes s; gpio_label := gpio_label s;
     gpio_dir := gpio_dir s; gpio_level := gpio_level s; clock := clock s + us;
     log := log s; env := env s |}.

Definition emit (e : event) (s : state) : state :=
  {| lcd := lcd s; chrdevs := chrdevs s; classes := classes s;
     devnodes := devnodes s; gpio_label := gpio_label s;
     gpio_dir := gpio_dir s; gpio_level := gpio_level s; clock := clock s;
     log := e :: log s; env := env s |}.

(** ** The monad of driver code *)

Definition M (A : Type) : Type := state → A * state.

Definition ret {A} (a : A) : M A := fun s => (a, s).

Definition bind {A B} (m : M A) (k : A → M B) : M B :=
  fun s => let (a, s') := m s in k a s'.

Definition modify (f : state → state) : M unit := fun s => (tt, f s).

Declare Scope drv_scope.
Delimit Scope drv_scope with drv.
Notation "x <- m ;; k" := (bind m (fun x => k))
  (at level 100, m at next level, right associativity) : drv_scope.
Notation "m ;; k" := (bind m (fun _ => k))
  (at level 100, right associativity) : drv_scope.
Local Open Scope drv_scope.

(** State after, and result of, running a computation. *)
Definition exec {A} (m : M A) (s : state) : state := snd (m s).
Definition eval {A} (m : M A) (s : state) : A := fst (m s).

Definition gets {A} (f : state → A) : M A := fun s => (f s, s).

(** The kernel calls a computation makes when run from [s], oldest first. *)
Definition events {A} (m : M A) (s : state) : list event :=
  let l := log (exec m s) in
  rev (take (length l - length (log s)) l).

(** ** Kernel model *)

Definition EINVAL : Z := 22.
Definition EBUSY : Z := 16.
Definition MAX_ERRNO : Z := 4095.

(** [IS_ERR] and [PTR_ERR] of [linux/err.h], on pointers read as signed
    words: the top [MAX_ERRNO] addresses encode an errno. *)
Definition IS_ERR (p : Z) : bool := (- MAX_ERRNO <=? p) && (p <? 0).
Definition PTR_ERR (p : Z) : Z := p.

(** [MKDEV(ma, mi)], with [MINORBITS = 20]. *)
Definition MKDEV (ma mi : Z) : Z := Z.lor (Z.shiftl ma 20) mi.

(** A C integer used as a logic level. *)
Definition high (value : Z) : bool := negb (value =? 0).

Definition printk (msg : string) : M unit := modify (emit (Printk msg)).

(** [register_chrdev(major, name, fops)]: the kernel picks the major when
    [major] is 0. *)
Definition register_chrdev (major : Z) (name : string) : M Z := fun s =>
  let r := chrdev_ret (env s) in
  let s := emit (RegisterChrdev major name r) s in
  if r <? 0 then (r, s)
  else (r, set_chrdevs (insert (if major =? 0 then r else major) name) s).

(** [unregister_chrdev(major, name)] drops the region of [major]; the name
    is not compared. *)
Definition unregister_chrdev (major : Z) (name : string) : M unit :=
  modify (fun s => set_chrdevs (delete major) (emit (UnregisterChrdev major name) s)).

Definition class_create (name : string) : M Z := fun s =>
  let p := class_ret (env s) in
  let s := emit (ClassCreate name p) s in
  if IS_ERR p then (p, s) else (p, set_classes (insert p false) s).

(** [class_destroy(cls)] unregisters the class and nothing else: devices
    created in it stay until [device_destroy]. *)
Definition class_destroy (cls : Z) : M unit :=
  modify (fun s => set_classes (delete cls) (emit (ClassDestroy cls) s)).

(** [cls->devnode = lcd_devnode]. *)
Definition class_set_devnode (cls : Z) : M unit :=
  modify (set_classes (insert cls true)).

(** [lcd_devnode(dev, mode)]: the node keeps its default name ([NULL]) and,
    when [mode] is given, gets mode 0666. *)
Definition lcd_devnode (mode : option Z) : option string * option Z :=
  (None, match mode with Some _ => Some 438 | None => None end).

Definition default_mode : Z := 384.

(** [device_create(cls, NULL, devt, drvdata, name)]: on success the node
    [/dev/name] appears, with the mode the class's devnode callback asks
    for. *)
Definition device_create (cls devt : Z) (name : string) : M Z := fun s =>
  let p := device_ret (env s) in
  let s := emit (DeviceCreate cls devt name p) s in
  if IS_ERR p then (p, s)
  else
    let mode :=
      match classes s !! cls with
      | Some true => default (default_mode) (snd (lcd_devnode (Some default_mode)))
      | _ => default_mode
      end in
    (p, set_devnodes (insert devt (name, mode)) s).

Definition device_destroy (cls devt : Z) : M unit :=
  modify (fun s => set_devnodes (delete devt) (emit (DeviceDestroy cls devt) s)).

(** [gpio_request(line, label)]: 0 and the line is owned under [label], or
    [-EBUSY] when the line is already requested. *)
Definition gpio_request (line : Z) (label : string) : M Z := fun s =>
  match gpio_label s !! line with
  | Some _ => (- EBUSY, emit (GpioRequest line label (- EBUSY)) s)
  | None => (0, set_gpio_label (insert line label) (emit (GpioRequest line label 0) s))
  end.

Definition gpio_free (line : Z) : M unit :=
  modify (fun s => set_gpio_label (delete line) (emit (GpioFree line) s)).

Definition gpio_direction_output (line value : Z) : M Z := fun s =>
  (0, set_gpio_level (insert line (high value))
        (set_gpio_dir (insert line DirOut)
           (emit (GpioDirectionOutput line value) s))).

Definition gpio_set_value (line value : Z) : M unit :=
  modify (fun s => set_gpio_level (insert line (high value))
                     (emit (GpioSetValue line value) s)).

(** [udelay] and [mdelay] busy-wait at least the time asked for; [clock]
    counts that guaranteed minimum. *)
Definition udelay (usecs : Z) : M unit :=
  modify (fun s => tick usecs (emit (Udelay usecs) s)).

Definition mdelay (msecs : Z) : M unit :=
  modify (fun s => tick (1000 * msecs) (emit (Mdelay msecs) s)).

Definition set_lock (l : spinlock) (d : lcd_data) : lcd_data :=
  {| lcd_mjr := lcd_mjr d; lcd_class := lcd_class d; lock := l |}.

Definition spin_lock_init : M unit :=
  modify (fun s => set_lcd (set_lock {| initialised := true; locked := false |})
                     (emit SpinLockInit s)).

Definition spin_lock : M unit :=
  modify (fun s => set_lcd (fun d => set_lock {| initialised := initialised (lock d);
                                                  locked := true |} d)
                     (emit SpinLock s)).

Definition spin_unlock : M unit :=
  modify (fun s => set_lcd (fun d => set_lock {| initialised := initialised (lock d);
                                                  locked := false |} d)
                     (emit SpinUnlock s)).

(** ** The driver *)

(** The command words of [lcd-mod.c]: arrays of eight 0/1 bytes, most
    significant bit first. *)
Definition reset       : list Z := [0;0;0;0;0;0;0;0].
Definition clear       : list Z := [0;0;0;0;0;0;0;1].
Definition home        : list Z := [0;0;0;0;0;0;1;0].
Definition entry       : list Z := [0;0;0;0;0;1;1;0].
Definition displayon   : list Z := [0;0;0;0;1;1;1;1].
Definition displayoff  : list Z := [0;0;0;0;1;0;0;0].
Definition functionset : list Z := [0;0;1;0;0;0;0;0].
Definition startup1    : list Z := [0;0;1;1;0;0;1;1].
Definition startup2    : list Z := [0;0;1;1;0;0;1;0].
Definition a           : list Z := [0;1;0;1;0;0;0;1].

(** [data[i]]. *)
Definition at_index (data : list Z) (i : nat) : Z := nth i data 0.

Definition lcd_ioctl (cmd arg : Z) : M Z := ret (- EINVAL).

Definition lcd_open : M Z := ret 0.

Definition lcd_release : M Z :=
  spin_lock ;;
  gpio_free 4 ;;
  gpio_free 17 ;;
  gpio_free 18 ;;
  gpio_free 22 ;;
  gpio_free 23 ;;
  gpio_free 24 ;;
  gpio_free 25 ;;
  spin_unlock ;;
  ret 0.

Definition lcd_write (data : list Z) : M Z :=
  gpio_set_value 25 (at_index data 0) ;;
  gpio_set_value 24 (at_index data 1) ;;
  gpio_set_value 23 (at_index data 2) ;;
  gpio_set_value 22 (at_index data 3) ;;
  gpio_set_value 18 1 ;;
  udelay 50 ;;
  gpio_set_value 18 0 ;;
  udelay 50 ;;
  gpio_set_value 25 (at_index data 4) ;;
  gpio_set_value 24 (at_index data 5) ;;
  gpio_set_value 23 (at_index data 6) ;;
  gpio_set_value 22 (at_index data 7) ;;
  gpio_set_value 18 1 ;;
  udelay 50 ;;
  gpio_set_value 18 0 ;;
  udelay 50 ;;
  ret 0.

Definition lcd_init : M Z :=
  spin_lock ;;
  mdelay 15 ;;
  lcd_write reset ;;
  mdelay 35 ;;
  lcd_write startup1 ;;
  lcd_write startup2 ;;
  lcd_write functionset ;;
  lcd_write displayoff ;;
  lcd_write clear ;;
  lcd_write entry ;;
  lcd_write displayon ;;
  lcd_write home ;;
  gpio_set_value 4 1 ;;
  mdelay 35 ;;
  lcd_write a ;;
  mdelay 35 ;;
  gpio_set_value 4 0 ;;
  spin_unlock ;;
  ret 0.

(** The text [printk] logs when the request for the line labelled [label]
    fails. *)
Definition request_failure (label : string) : string :=
  "GPIO request failure: " +:+ label.

Definition req_gpio : M Z :=
  r <- gpio_request 4 "RS" ;;
  if negb (r =? 0) then printk (request_failure "RS") ;; ret (-1) else
  r <- gpio_request 17 "RW" ;;
  if negb (r =? 0) then printk (request_failure "RW") ;; ret (-1) else
  r <- gpio_request 18 "E" ;;
  if negb (r =? 0) then printk (request_failure "E") ;; ret (-1) else
  r <- gpio_request 22 "DB4" ;;
  if negb (r =? 0) then printk (request_failure "DB4") ;; ret (-1) else
  r <- gpio_request 23 "DB5" ;;
  if negb (r =? 0) then printk (request_failure "DB5") ;; ret (-1) else
  r <- gpio_request 24 "DB6" ;;
  if negb (r =? 0) then printk (request_failure "DB6") ;; ret (-1) else
  r <- gpio_request 25 "DB7" ;;
  if negb (r =? 0) then printk (request_failure "DB7") ;; ret (-1) else
  gpio_direction_output 4 0 ;;
  gpio_direction_output 17 0 ;;
  gpio_direction_output 18 0 ;;
  gpio_direction_output 22 0 ;;
  gpio_direction_output 23 0 ;;
  gpio_direction_output 24 0 ;;
  gpio_direction_output 25 0 ;;
  ret 0.

Definition set_mjr (v : Z) (d : lcd_data) : lcd_data :=
  {| lcd_mjr := v; lcd_class := lcd_class d; lock := lock d |}.

Definition set_class (v : Z) (d : lcd_data) : lcd_data :=
  {| lcd_mjr := lcd_mjr d; lcd_class := v; lock := lock d |}.

Definition rpigpio_lcd_minit : M Z :=
  let ret0 := 0 in
  printk "GPIO LCD Driver" ;;
  printk "By: Tony Provencal" ;;
  mjr <- register_chrdev 0 "gpio_lcd" ;;
  modify (set_lcd (set_mjr mjr)) ;;
  mjr <- gets (fun s => lcd_mjr (lcd s)) ;;
  if mjr <? 0 then
    printk "Cannot register char device" ;;
    gets (fun s => lcd_mjr (lcd s))
  else
  cls <- class_create "lcd_class" ;;
  modify (set_lcd (set_class cls)) ;;
  cls <- gets (fun s => lcd_class (lcd s)) ;;
  if IS_ERR cls then
    unregister_chrdev mjr "lcd_gpio" ;;
    ret (PTR_ERR cls)
  else
  class_set_devnode cls ;;
  dev <- device_create cls (MKDEV mjr 0) "lcd" ;;
  if IS_ERR dev then
    class_destroy cls ;;
    unregister_chrdev mjr "lcd_gpio" ;;
    ret (PTR_ERR dev)
  else
  r <- req_gpio ;;
  if r <? 0 then
    class_destroy cls ;;
    unregister_chrdev mjr "lcd_gpio" ;;
    ret (PTR_ERR dev)
  else
  lcd_init ;;
  spin_lock_init ;;
  ret ret0.

Definition rpigpio_lcd_mcleanup : M unit :=
  lcd_write clear ;;
  gpio_free 4 ;;
  gpio_free 17 ;;
  gpio_free 18 ;;
  gpio_free 22 ;;
  gpio_free 23 ;;
  gpio_free 24 ;;
  gpio_free 25 ;;
  cls <- gets (fun s => lcd_class (lcd s)) ;;
  mjr <- gets (fun s => lcd_mjr (lcd s)) ;;
  device_destroy cls (MKDEV mjr 0) ;;
  class_destroy cls ;;
  unregister_chrdev mjr "lcd_gpio" ;;
  printk "Goodbye".

(** ** A freshly booted machine *)

Definition boot (h : host) (claimed : gmap Z string) : state :=
  {| lcd := {| lcd_mjr := 0; lcd_class := 0;
               lock := {| initialised := false; locked := false |} |};
     chrdevs := ∅; classes := ∅; devnodes := ∅;
     gpio_label := claimed; gpio_dir := ∅; gpio_level := ∅;
     clock := 0; log := []; env := h |}.

(** The kernel grants every registration: major 250 and two kernel
    addresses (on the 32-bit ARM the driver is written for, kernel
    addresses are negative as signed words). *)
Definition granting : host :=
  {| chrdev_ret := 250; class_ret := -1073737728; device_ret := -1073733632 |}.

Definition free_board : state := boot granting ∅.

(** The enable line is already held by another driver. *)
Definition enable_taken : state := boot granting {[ 18 := "other"%string ]}.

(** ** The lines of the display, in the order [req_gpio] requests them *)

Definition lcd_lines : list (Z * string) :=
  [(4, "RS"); (17, "RW"); (18, "E"); (22, "DB4"); (23, "DB5"); (24, "DB6");
   (25, "DB7")]%string.

(** The request cascade of [req_gpio] over a list of lines, followed by
    [k] when every request is granted. *)
Fixpoint request_all (ls : list (Z * string)) (k : M Z) : M Z :=
  match ls with
  | [] => k
  | (line, label) :: ls =>
      r <- gpio_request line label ;;
      if negb (r =? 0) then printk (request_failure label) ;; ret (-1)
      else request_all ls k
  end.

(** State after the requests for [ls] were granted, one after the other. *)
Definition granted (ls : list (Z * string)) (s : state) : state :=
  foldl (fun s '(line, label) =>
           set_gpio_label (insert line label) (emit (GpioRequest line label 0) s))
        s ls.

(** The second half of [req_gpio]. *)
Definition configure_outputs : M Z :=
  gpio_direction_output 4 0 ;;
  gpio_direction_output 17 0 ;;
  gpio_direction_output 18 0 ;;
  gpio_direction_output 22 0 ;;
  gpio_direction_output 23 0 ;;
  gpio_direction_output 24 0 ;;
  gpio_direction_output 25 0 ;;
  ret 0.

(** None of the seven lines is requested by anyone. *)
Definition lines_free (s : state) : Prop :=
  Forall (fun line => gpio_label s !! line = None) lcd_lines.*1.

(** The kernel grants the three registrations of module init. *)
Definition registration_granted (s : state) : Prop :=
  (chrdev_ret (env s) <? 0) = false ∧
  IS_ERR (class_ret (env s)) = false ∧
  IS_ERR (device_ret (env s)) = false.

(** ** What the display sees *)

(** Kernel calls of one [lcd_write], oldest first. *)
Definition write_events (data : list Z) : list event :=
  [ GpioSetValue 25 (at_index data 0); GpioSetValue 24 (at_index data 1);
    GpioSetValue 23 (at_index data 2); GpioSetValue 22 (at_index data 3);
    GpioSetValue 18 1; Udelay 50; GpioSetValue 18 0; Udelay 50;
    GpioSetValue 25 (at_index data 4); GpioSetValue 24 (at_index data 5);
    GpioSetValue 23 (at_index data 6); GpioSetValue 22 (at_index data 7);
    GpioSetValue 18 1; Udelay 50; GpioSetValue 18 0; Udelay 50 ].

(** Levels of the lines wired to the controller. *)
Record bus : Type := {
  RS : bool; RW : bool; E : bool;
  DB7 : bool; DB6 : bool; DB5 : bool; DB4 : bool
}.

Definition level_of (levels : gmap Z bool) (line : Z) : bool :=
  default false (levels !! line).

Definition bus_of (levels : gmap Z bool) : bus :=
  {| RS := level_of levels 4; RW := level_of levels 17; E := level_of levels 18;
     DB7 := level_of levels 25; DB6 := level_of levels 24;
     DB5 := level_of levels 23; DB4 := level_of levels 22 |}.

Definition drive (line : Z) (v : bool) (b : bus) : bus :=
  if line =? 4 then
    {| RS := v; RW := RW b; E := E b; DB7 := DB7 b; DB6 := DB6 b; DB5 := DB5 b; DB4 := DB4 b |}
  else if line =? 17 then
    {| RS := RS b; RW := v; E := E b; DB7 := DB7 b; DB6 := DB6 b; DB5 := DB5 b; DB4 := DB4 b |}
  else if line =? 18 then
    {| RS := RS b; RW := RW b; E := v; DB7 := DB7 b; DB6 := DB6 b; DB5 := DB5 b; DB4 := DB4 b |}
  else if line =? 25 then
    {| RS := RS b; RW := RW b; E := E b; DB7 := v; DB6 := DB6 b; DB5 := DB5 b; DB4 := DB4 b |}
  else if line =? 24 then
    {| RS := RS b; RW := RW b; E := E b; DB7 := DB7 b; DB6 := v; DB5 := DB5 b; DB4 := DB4 b |}
  else if line =? 23 then
    {| RS := RS b; RW := RW b; E := E b; DB7 := DB7 b; DB6 := DB6 b; DB5 := v; DB4 := DB4 b |}
  else if line =? 22 then
    {| RS := RS b; RW := RW b; E := E b; DB7 := DB7 b; DB6 := DB6 b; DB5 := DB5 b; DB4 := v |}
  else b.

(** A nibble as the controller latches it: the level of RS, and the levels
    of DB7, DB6, DB5, DB4. *)
Definition nibble : Type := bool * list bool.

Definition sample (b : bus) : nibble := (RS b, [DB7 b; DB6 b; DB5 b; DB4 b]).

(** The controller latches the data lines on each falling edge of E.
    [latched b evs] lists what it latches while the kernel calls [evs] are
    made, starting with the lines at the levels [b]. *)
Fixpoint latched (b : bus) (evs : list event) : list nibble :=
  match evs with
  | [] => []
  | GpioSetValue line value :: evs =>
      let b' := drive line (high value) b in
      if E b && negb (E b') then sample b :: latched b' evs
      else latched b' evs
  | GpioDirectionOutput line value :: evs =>
      let b' := drive line (high value) b in
      if E b && negb (E b') then sample b :: latched b' evs
      else latched b' evs
  | _ :: evs => latched b evs
  end.

(** The two nibbles of a word sent with RS at [rs]: bits 0..3, then bits
    4..7. *)
Definition nibbles_of (rs : bool) (word : list Z) : list nibble :=
  [ (rs, high <$> take 4 word); (rs, high <$> drop 4 word) ].

(** ** Timing *)

(** Guaranteed minimum time, in microseconds, that passes during [evs]
    before the next change of a line (or until [evs] ends). *)
Fixpoint settle (evs : list event) : Z :=
  match evs with
  | [] => 0
  | Udelay us :: evs => us + settle evs
  | Mdelay ms :: evs => 1000 * ms + settle evs
  | GpioSetValue _ _ :: _ => 0
  | GpioDirectionOutput _ _ :: _ => 0
  | _ :: evs => settle evs
  end.

(** After every write to the enable line, at least [us] microseconds pass
    before any line is written again. *)
Definition enable_held (us : Z) (evs : list event) : Prop :=
  ∀ pre v post, evs = pre ++ GpioSetValue 18 v :: post → us ≤ settle post.

Fixpoint enable_heldb (us : Z) (evs : list event) : bool :=
  match evs with
  | [] => true
  | GpioSetValue line _ :: post =>
      (if line =? 18 then us <=? settle post else true) && enable_heldb us post
  | _ :: post => enable_heldb us post
  end.

(** Four bits put on DB7, DB6, DB5, DB4, in the order [lcd_write] writes
    them. *)
Definition drive_data (b7 b6 b5 b4 : Z) : list event :=
  [GpioSetValue 25 b7; GpioSetValue 24 b6; GpioSetValue 23 b5; GpioSetValue 22 b4].

(** An enable pulse: E raised, held, lowered, held. *)
Definition pulse : list event :=
  [GpioSetValue 18 1; Udelay 50; GpioSetValue 18 0; Udelay 50].

(** The lines an event writes. *)
Definition written (e : event) : list Z :=
  match e with
  | GpioSetValue line _ => [line]
  | GpioDirectionOutput line _ => [line]
  | _ => []
  end.

(** Kernel calls of [lcd_init], oldest first. *)
Definition lcd_init_events : list event :=
  [SpinLock; Mdelay 15] ++ write_events reset ++ [Mdelay 35] ++
  write_events startup1 ++ write_events startup2 ++
  write_events functionset ++ write_events displayoff ++
  write_events clear ++ write_events entry ++ write_events displayon ++
  write_events home ++
  [GpioSetValue 4 1; Mdelay 35] ++ write_events a ++
  [Mdelay 35; GpioSetValue 4 0; SpinUnlock].

(** ** Module init, step by step *)

(** State after the three registrations of [rpigpio_lcd_minit] were
    granted: the point where [req_gpio] is called. *)
Definition registered (s : state) : state :=
  let mjr := chrdev_ret (env s) in
  let cls := class_ret (env s) in
  let dev := device_ret (env s) in
  set_devnodes (insert (MKDEV mjr 0) ("lcd"%string, 438))
    (emit (DeviceCreate cls (MKDEV mjr 0) "lcd" dev)
       (set_classes (insert cls true)
          (set_lcd (set_class cls)
             (set_classes (insert cls false)
                (emit (ClassCreate "lcd_class" cls)
                   (set_lcd (set_mjr mjr)
                      (set_chrdevs (insert mjr "gpio_lcd"%string)
                         (emit (RegisterChrdev 0 "gpio_lcd" mjr)
                            (emit (Printk "By: Tony Provencal")
                               (emit (Printk "GPIO LCD Driver") s)))))))))).

(** Kernel calls of module init up to and including [device_create], when
    the kernel [h] grants them. *)
Definition registration_events (h : host) : list event :=
  [ Printk "GPIO LCD Driver"; Printk "By: Tony Provencal";
    RegisterChrdev 0 "gpio_lcd" (chrdev_ret h);
    ClassCreate "lcd_class" (class_ret h);
    DeviceCreate (class_ret h) (MKDEV (chrdev_ret h) 0) "lcd" (device_ret h) ].

(** Kernel calls of a [req_gpio] that is granted every line. *)
Definition req_gpio_events : list event :=
  ((fun '(line, label) => GpioRequest line label 0) <$> lcd_lines)
  ++ ((fun '(line, _) => GpioDirectionOutput line 0) <$> lcd_lines).

(** ** Module exit and the failing starts of module init *)

(** Kernel calls of [rpigpio_lcd_mcleanup] when [lcd] holds [d], oldest
    first. *)
Definition mcleanup_events (d : lcd_data) : list event :=
  write_events clear
  ++ [GpioFree 4; GpioFree 17; GpioFree 18; GpioFree 22; GpioFree 23;
      GpioFree 24; GpioFree 25]
  ++ [DeviceDestroy (lcd_class d) (MKDEV (lcd_mjr d) 0);
      ClassDestroy (lcd_class d);
      UnregisterChrdev (lcd_mjr d) "lcd_gpio";
      Printk "Goodbye"].

(** Guaranteed minimum time, in microseconds, spent busy-waiting during
    [evs]. *)
Fixpoint busy_wait (evs : list event) : Z :=
  match evs with
  | [] => 0
  | Udelay us :: evs => us + busy_wait evs
  | Mdelay ms :: evs => 1000 * ms + busy_wait evs
  | _ :: evs => busy_wait evs
  end.

(** Kernels that refuse one of the three registrations ([-EBUSY] is -16,
    [-ENOMEM] is -12). *)
Definition chrdev_refusing : host :=
  {| chrdev_ret := -16; class_ret := -1073737728; device_ret := -1073733632 |}.

Definition class_refusing : host :=
  {| chrdev_ret := 250; class_ret := -12; device_ret := -1073733632 |}.

Definition device_refusing : host :=
  {| chrdev_ret := 250; class_ret := -1073737728; device_ret := -12 |}.

(** ** The file operations *)

(** The entries of [lcd_fops]: what a process can make the driver do
    through the device node. *)
Inductive fop : Type :=
  | FOpen
  | FRelease
  | FIoctl (cmd arg : Z).

Definition lcd_fops (o : fop) : M Z :=
  match o with
  | FOpen => lcd_open
  | FRelease => lcd_release
  | FIoctl cmd arg => lcd_ioctl cmd arg
  end.

(** State after the file operations [os], run one after the other. *)
Definition run_fops (os : list fop) (s : state) : state :=
  foldl (fun s o => exec (lcd_fops o) s) s os.

(** * Properties *)

(** ** Running computations *)

Lemma events_of_log {A} (m : M A) (s : state) (l : list event) :
  log (exec m s) = l ++ log s → events m s = rev l.
Proof.
  intros H. unfold events. rewrite H, length_app.
  replace (length l + length (log s) - length (log s))%nat with (length l) by lia.
  by rewrite take_app_length.
Qed.

(** A test of a result for an error, as every [if (f() < 0)] of the
    driver. *)
Lemma bind_if_negative {X} (m : M Z) (A B : M X) (s : state) :
  bind m (fun r => if r <? 0 then A else B) s =
  (if eval m s <? 0 then A else B) (exec m s).
Proof. unfold eval, exec, bind. by destruct (m s). Qed.

(** Unfolds the monad and the kernel model in the goal, down to the
    fields of the resulting state. *)
Ltac run :=
  unfold exec, eval, bind, printk, gpio_free, gpio_direction_output,
    gpio_set_value, udelay, mdelay, spin_lock_init, spin_lock, spin_unlock,
    unregister_chrdev, class_destroy, class_set_devnode, device_destroy;
  unfold modify, ret, gets;
  cbn [fst snd lcd chrdevs classes devnodes gpio_label gpio_dir gpio_level
       clock log env set_lcd set_chrdevs set_classes set_devnodes
       set_gpio_label set_gpio_dir set_gpio_level tick emit].

(** ** [lcd_write] *)

Lemma lcd_write_log data s :
  log (exec (lcd_write data) s) = rev (write_events data) ++ log s.
Proof. reflexivity. Qed.

Lemma lcd_write_events data s :
  events (lcd_write data) s = write_events data.
Proof.
  rewrite (events_of_log _ _ _ (lcd_write_log data s)). apply rev_involutive.
Qed.

Lemma lcd_init_log s :
  log (exec lcd_init s) = rev lcd_init_events ++ log s.
Proof. reflexivity. Qed.

Lemma lcd_init_events_eq s : events lcd_init s = lcd_init_events.
Proof.
  rewrite (events_of_log _ _ _ (lcd_init_log s)). apply rev_involutive.
Qed.

Lemma enable_heldb_sound us evs :
  enable_heldb us evs = true → enable_held us evs.
Proof.
  induction evs as [|e evs IH]; intros Hb pre v post Heq.
  - by destruct pre.
  - destruct pre as [|e' pre]; simplify_eq/=.
    + apply andb_true_iff in Hb as [Hb _]. by apply Z.leb_le.
    + eapply IH; [|done].
      destruct e'; try done. by apply andb_true_iff in Hb as [_ Hb].
Qed.

(** C4: [lcd_write] first puts [data[0..3]] on DB7..DB4 and pulses E once,
    then puts [data[4..7]] on DB7..DB4 and pulses E once more; the
    controller latches exactly these two nibbles, the high one first. *)
Theorem lcd_write_nibble_order (data : list Z) (s : state) :
  length data = 8%nat →
  events (lcd_write data) s =
    drive_data (at_index data 0) (at_index data 1) (at_index data 2) (at_index data 3)
    ++ pulse ++
    drive_data (at_index data 4) (at_index data 5) (at_index data 6) (at_index data 7)
    ++ pulse
  ∧ latched (bus_of (gpio_level s)) (events (lcd_write data) s) =
      nibbles_of (RS (bus_of (gpio_level s))) data.
Proof.
  intros Hlen. rewrite lcd_write_events. split; [reflexivity|].
  do 9 (destruct data as [|? data]; try discriminate Hlen).
  generalize (bus_of (gpio_level s)). intros [rs rw [] d7 d6 d5 d4]; reflexivity.
Qed.

Lemma lcd_write_nibble_order_witness :
  length a = 8%nat ∧
  latched (bus_of (gpio_level free_board)) (events (lcd_write a) free_board) =
    [ (false, [false; true; false; true]); (false, [false; false; false; true]) ].
Proof.
  split; [reflexivity|].
  exact (proj2 (lcd_write_nibble_order a free_board eq_refl)).
Defined.

(** C8: [lcd_write] writes only DB4..DB7 (22..25) and E (18): the levels of
    RS (4) and RW (17) are the same after the call as before it, and so are
    the owners and directions of all lines. *)
Theorem lcd_write_keeps_rs_rw (data : list Z) (s : state) :
  gpio_level (exec (lcd_write data) s) !! 4 = gpio_level s !! 4
  ∧ gpio_level (exec (lcd_write data) s) !! 17 = gpio_level s !! 17
  ∧ Forall (fun line => line ∈ [18; 22; 23; 24; 25])
      (concat (written <$> events (lcd_write data) s))
  ∧ gpio_label (exec (lcd_write data) s) = gpio_label s
  ∧ gpio_dir (exec (lcd_write data) s) = gpio_dir s.
Proof.
  split_and!.
  - unfold lcd_write; run. by rewrite !lookup_insert_ne.
  - unfold lcd_write; run. by rewrite !lookup_insert_ne.
  - rewrite lcd_write_events. cbn [write_events fmap list_fmap written concat app].
    repeat (apply Forall_cons; split; [by repeat constructor|]).
    apply Forall_nil_2.
  - reflexivity.
  - reflexivity.
Qed.

(** C5: in every [lcd_write], and so throughout [lcd_init], each write to E
    is followed by at least 50 microseconds of busy-waiting before any line
    is written again: E stays high for at least 50 us after it is raised,
    and every line stays put for at least 50 us after E is lowered.  One
    [lcd_write] busy-waits 200 us in all. *)
Theorem enable_pulse_width (data : list Z) (s : state) :
  enable_held 50 (events (lcd_write data) s)
  ∧ enable_held 50 (events lcd_init s)
  ∧ events (lcd_write data) s =
      drive_data (at_index data 0) (at_index data 1) (at_index data 2) (at_index data 3)
      ++ pulse ++
      drive_data (at_index data 4) (at_index data 5) (at_index data 6) (at_index data 7)
      ++ pulse
  ∧ clock (exec (lcd_write data) s) = clock s + 200.
Proof.
  split_and!.
  - rewrite lcd_write_events. by apply enable_heldb_sound.
  - rewrite lcd_init_events_eq. by apply enable_heldb_sound; vm_compute.
  - by rewrite lcd_write_events.
  - unfold lcd_write; run. lia.
Qed.

(** C7: [lcd_ioctl] returns [-EINVAL] whatever the request, the argument
    and the state, and changes nothing. *)
Theorem lcd_ioctl_einval (cmd arg : Z) (s : state) :
  eval (lcd_ioctl cmd arg) s = - EINVAL
  ∧ exec (lcd_ioctl cmd arg) s = s
  ∧ events (lcd_ioctl cmd arg) s = [].
Proof.
  split_and!; [reflexivity | reflexivity |].
  by apply (events_of_log _ _ []).
Qed.

(** C6: [lcd_open] returns 0 and makes no kernel call, so requests no
    line; [lcd_release] takes the lock, frees the lines 4, 17, 18, 22, 23,
    24, 25, drops the lock and returns 0, after which none of the seven
    lines is owned. *)
Theorem lcd_open_release (s : state) :
  eval lcd_open s = 0
  ∧ exec lcd_open s = s
  ∧ events lcd_open s = []
  ∧ eval lcd_release s = 0
  ∧ events lcd_release s =
      [SpinLock; GpioFree 4; GpioFree 17; GpioFree 18; GpioFree 22;
       GpioFree 23; GpioFree 24; GpioFree 25; SpinUnlock]
  ∧ Forall (fun line => gpio_label (exec lcd_release s) !! line = None)
      (lcd_lines.*1).
Proof.
  split_and!.
  - reflexivity.
  - reflexivity.
  - by apply (events_of_log _ _ []).
  - reflexivity.
  - by apply (events_of_log _ _ [_; _; _; _; _; _; _; _; _]).
  - unfold lcd_release; run.
    repeat (apply Forall_cons; split;
            [by rewrite ?lookup_delete_ne by done; rewrite lookup_delete_eq|]).
    apply Forall_nil_2.
Qed.

(** C3: [lcd_init], entered with RS low as [req_gpio] leaves it, sends the
    words reset, startup1, startup2, functionset, displayoff, clear, entry,
    displayon, home with RS low, in this order, each as its own two
    nibbles; then raises RS, sends the one word [a], and lowers RS again.
    The waits are 15 ms at the start, 35 ms after reset, and 35 ms before
    and after the data word. *)
Theorem lcd_init_sequence (s : state) :
  gpio_level s !! 4 = Some false →
  events lcd_init s =
    [SpinLock; Mdelay 15] ++ write_events reset ++ [Mdelay 35] ++
    write_events startup1 ++ write_events startup2 ++
    write_events functionset ++ write_events displayoff ++
    write_events clear ++ write_events entry ++ write_events displayon ++
    write_events home ++
    [GpioSetValue 4 1; Mdelay 35] ++ write_events a ++
    [Mdelay 35; GpioSetValue 4 0; SpinUnlock]
  ∧ latched (bus_of (gpio_level s)) (events lcd_init s) =
      concat (nibbles_of false <$>
                [reset; startup1; startup2; functionset; displayoff; clear;
                 entry; displayon; home])
      ++ nibbles_of true a
  ∧ gpio_level (exec lcd_init s) !! 4 = Some false
  ∧ eval lcd_init s = 0.
Proof.
  intros Hrs. rewrite lcd_init_events_eq. split_and!.
  - reflexivity.
  - assert (RS (bus_of (gpio_level s)) = false) as Hb
      by (unfold bus_of, level_of; simpl; by rewrite Hrs).
    revert Hb. generalize (bus_of (gpio_level s)).
    intros [rs rw [] d7 d6 d5 d4] Hb; simpl in Hb; subst rs; reflexivity.
  - unfold lcd_init, lcd_write; run. by rewrite lookup_insert_eq.
  - reflexivity.
Qed.

Lemma lcd_init_sequence_witness :
  gpio_level (exec req_gpio free_board) !! 4 = Some false
  ∧ gpio_level (exec lcd_init (exec req_gpio free_board)) !! 4 = Some false.
Proof.
  assert (gpio_level (exec req_gpio free_board) !! 4 = Some false) as H
    by (vm_compute; reflexivity).
  split; [exact H|].
  exact (proj1 (proj2 (proj2 (lcd_init_sequence _ H)))).
Defined.

(** ** [req_gpio] *)

Lemma req_gpio_unroll : req_gpio = request_all lcd_lines configure_outputs.
Proof. reflexivity. Qed.

Lemma granted_snoc ls line label s :
  granted (ls ++ [(line, label)]) s =
  set_gpio_label (insert line label)
    (emit (GpioRequest line label 0) (granted ls s)).
Proof. unfold granted. by rewrite foldl_snoc. Qed.

Lemma granted_log ls s :
  log (granted ls s) =
  rev ((fun '(line, label) => GpioRequest line label 0) <$> ls) ++ log s.
Proof.
  induction ls as [|[line label] ls IH] using rev_ind; [done|].
  rewrite granted_snoc, fmap_app, rev_app_distr. cbn. by rewrite IH.
Qed.

Lemma granted_frame ls s :
  gpio_dir (granted ls s) = gpio_dir s
  ∧ gpio_level (granted ls s) = gpio_level s
  ∧ devnodes (granted ls s) = devnodes s
  ∧ lcd (granted ls s) = lcd s.
Proof.
  induction ls as [|[line label] ls IH] using rev_ind; [done|].
  by rewrite granted_snoc.
Qed.

Lemma granted_label_other ls s line :
  line ∉ ls.*1 → gpio_label (granted ls s) !! line = gpio_label s !! line.
Proof.
  induction ls as [|[l n] ls IH] using rev_ind; [done|].
  rewrite fmap_app, not_elem_of_app, granted_snoc. cbn.
  intros [Hls Hl]. rewrite lookup_insert_ne; [by apply IH|].
  intros ->. apply Hl. by left.
Qed.

Lemma granted_label_in ls s line label :
  NoDup ls.*1 → (line, label) ∈ ls →
  gpio_label (granted ls s) !! line = Some label.
Proof.
  induction ls as [|[l n] ls IH] using rev_ind; [by intros _ ?%elem_of_nil|].
  rewrite fmap_app, granted_snoc. cbn.
  intros [Hnd [Hdis _]]%NoDup_app [Hin|Hin%list_elem_of_singleton]%elem_of_app.
  - rewrite lookup_insert_ne; [by apply IH|].
    intros ->. apply (Hdis line); [|by left].
    apply list_elem_of_fmap. by exists (line, label).
  - simplify_eq. by rewrite lookup_insert_eq.
Qed.

Lemma request_all_granted ls k s :
  NoDup ls.*1 →
  Forall (fun line => gpio_label s !! line = None) ls.*1 →
  request_all ls k s = k (granted ls s).
Proof.
  revert s. induction ls as [|[line label] ls IH]; intros s Hnd Hfree; [done|].
  cbn in Hnd, Hfree. apply NoDup_cons in Hnd as [Hnew Hnd].
  apply Forall_cons in Hfree as [Hline Hfree].
  cbn [request_all]. unfold bind at 1, gpio_request. rewrite Hline. cbn.
  apply IH; [done|].
  rewrite Forall_forall in Hfree. apply Forall_forall. intros x Hx.
  cbn. rewrite lookup_insert_ne; [by apply Hfree|]. by intros ->.
Qed.

Lemma request_all_refused pre line label post k s :
  NoDup pre.*1 →
  Forall (fun x => gpio_label s !! x = None) pre.*1 →
  is_Some (gpio_label s !! line) →
  request_all (pre ++ (line, label) :: post) k s =
  (-1, emit (Printk (request_failure label))
         (emit (GpioRequest line label (- EBUSY)) (granted pre s))).
Proof.
  revert s. induction pre as [|[l n] pre IH]; intros s Hnd Hfree [owner Hbusy].
  - cbn [app request_all]. unfold bind at 1, gpio_request. by rewrite Hbusy.
  - cbn in Hnd, Hfree. apply NoDup_cons in Hnd as [Hnew Hnd].
    apply Forall_cons in Hfree as [Hl Hfree].
    cbn [app request_all]. unfold bind at 1, gpio_request. rewrite Hl. cbn.
    apply IH; [done| |].
    + rewrite Forall_forall in Hfree. apply Forall_forall. intros x Hx.
      cbn. rewrite lookup_insert_ne; [by apply Hfree|]. by intros ->.
    + exists owner. cbn. rewrite lookup_insert_ne; [done|]. intros ->. congruence.
Qed.

(** Either every line of [ls] is free, or some line is the first one
    taken. *)
Lemma free_or_taken (ls : list (Z * string)) (s : state) :
  Forall (fun x => gpio_label s !! x = None) ls.*1
  ∨ ∃ pre line label post,
      ls = pre ++ (line, label) :: post
      ∧ Forall (fun x => gpio_label s !! x = None) pre.*1
      ∧ is_Some (gpio_label s !! line).
Proof.
  induction ls as [|[l n] ls IH]; [by left|].
  destruct (gpio_label s !! l) as [owner|] eqn:Hl.
  - right. exists [], l, n, ls. split_and!; [done|done|by exists owner].
  - destruct IH as [Hfree|(pre & line & label & post & -> & Hfree & Hbusy)].
    + left. by apply Forall_cons.
    + right. exists ((l, n) :: pre), line, label, post.
      split_and!; [done| |done]. by apply Forall_cons.
Qed.

Lemma lcd_lines_NoDup : NoDup lcd_lines.*1.
Proof. compute_done. Qed.

Lemma req_gpio_granted s :
  Forall (fun line => gpio_label s !! line = None) lcd_lines.*1 →
  req_gpio s = configure_outputs (granted lcd_lines s).
Proof.
  intros Hfree. rewrite req_gpio_unroll.
  apply request_all_granted; [apply lcd_lines_NoDup|done].
Qed.

Lemma req_gpio_refused s pre line label post :
  lcd_lines = pre ++ (line, label) :: post →
  Forall (fun x => gpio_label s !! x = None) pre.*1 →
  is_Some (gpio_label s !! line) →
  req_gpio s =
  (-1, emit (Printk (request_failure label))
         (emit (GpioRequest line label (- EBUSY)) (granted pre s))).
Proof.
  intros Hsplit Hfree Hbusy. rewrite req_gpio_unroll, Hsplit.
  apply request_all_refused; [|done|done].
  pose proof lcd_lines_NoDup as Hnd. rewrite Hsplit, fmap_app in Hnd.
  by apply NoDup_app in Hnd as [? _].
Qed.

(** C1, as the code has it: when the request for a line of the acquisition
    order is refused, [req_gpio] logs the failure and returns -1 at once.
    It requests no later line, configures no line and frees no line: every
    line granted earlier in the call stays owned under its label. *)
Theorem req_gpio_refused_keeps_lines (s : state) pre line label post :
  lcd_lines = pre ++ (line, label) :: post →
  Forall (fun x => gpio_label s !! x = None) pre.*1 →
  is_Some (gpio_label s !! line) →
  eval req_gpio s = -1
  ∧ events req_gpio s =
      ((fun '(l, n) => GpioRequest l n 0) <$> pre)
      ++ [GpioRequest line label (- EBUSY); Printk (request_failure label)]
  ∧ Forall (fun '(l, n) => gpio_label (exec req_gpio s) !! l = Some n) pre
  ∧ gpio_dir (exec req_gpio s) = gpio_dir s
  ∧ gpio_level (exec req_gpio s) = gpio_level s.
Proof.
  intros Hsplit Hfree Hbusy.
  pose proof (req_gpio_refused s pre line label post Hsplit Hfree Hbusy) as Hrun.
  unfold eval, exec. rewrite Hrun. cbn [fst snd].
  split_and!.
  - done.
  - rewrite (events_of_log req_gpio s
               (Printk (request_failure label)
                :: GpioRequest line label (- EBUSY)
                :: rev ((fun '(l, n) => GpioRequest l n 0) <$> pre))).
    + cbn [rev]. by rewrite rev_involutive, <- app_assoc.
    + unfold exec. rewrite Hrun. cbn. by rewrite granted_log.
  - apply Forall_forall. intros [l n] Hin. cbn.
    apply granted_label_in; [|done].
    pose proof lcd_lines_NoDup as Hnd. rewrite Hsplit, fmap_app in Hnd.
    by apply NoDup_app in Hnd as [? _].
  - cbn. apply granted_frame.
  - cbn. apply granted_frame.
Qed.

Lemma req_gpio_refused_keeps_lines_witness :
  gpio_label (exec req_gpio enable_taken) !! 4 = Some "RS"%string
  ∧ gpio_label (exec req_gpio enable_taken) !! 17 = Some "RW"%string.
Proof.
  destruct (req_gpio_refused_keeps_lines enable_taken
              [(4, "RS"); (17, "RW")]%string 18 "E"%string
              [(22, "DB4"); (23, "DB5"); (24, "DB6"); (25, "DB7")]%string)
    as (_ & _ & Hheld & _).
  - reflexivity.
  - repeat constructor.
  - exists "other"%string. reflexivity.
  - apply Forall_cons in Hheld as [H4 Hheld].
    apply Forall_cons in Hheld as [H17 _]. by split.
Defined.

(** The atomic acquire of C1 does not hold: with the enable line (18)
    taken by someone else, [req_gpio] returns -1 and lines 4 and 17, free
    before the call and granted during it, are still owned after it; no
    [gpio_free] is among its kernel calls. *)
Lemma req_gpio_enable_taken_keeps_rs :
  eval req_gpio enable_taken = -1
  ∧ gpio_label enable_taken !! 4 = None
  ∧ gpio_label enable_taken !! 17 = None
  ∧ gpio_label (exec req_gpio enable_taken) !! 4 = Some "RS"%string
  ∧ gpio_label (exec req_gpio enable_taken) !! 17 = Some "RW"%string
  ∧ events req_gpio enable_taken =
      [GpioRequest 4 "RS" 0; GpioRequest 17 "RW" 0; GpioRequest 18 "E" (-16);
       Printk "GPIO request failure: E"].
Proof. vm_compute. by split_and!. Qed.

Lemma configure_outputs_run s :
  eval configure_outputs s = 0
  ∧ gpio_label (exec configure_outputs s) = gpio_label s
  ∧ gpio_dir (exec configure_outputs s) =
      <[25:=DirOut]> (<[24:=DirOut]> (<[23:=DirOut]> (<[22:=DirOut]>
        (<[18:=DirOut]> (<[17:=DirOut]> (<[4:=DirOut]> (gpio_dir s)))))))
  ∧ gpio_level (exec configure_outputs s) =
      <[25:=false]> (<[24:=false]> (<[23:=false]> (<[22:=false]>
        (<[18:=false]> (<[17:=false]> (<[4:=false]> (gpio_level s)))))))
  ∧ log (exec configure_outputs s) =
      rev ((fun '(line, _) => GpioDirectionOutput line 0) <$> lcd_lines) ++ log s
  ∧ lcd (exec configure_outputs s) = lcd s.
Proof. split_and!; reflexivity. Qed.

Lemma req_gpio_granted_exec s :
  Forall (fun line => gpio_label s !! line = None) lcd_lines.*1 →
  exec req_gpio s = exec configure_outputs (granted lcd_lines s).
Proof. intros Hfree. unfold exec. by rewrite req_gpio_granted. Qed.

Lemma req_gpio_succeeds s :
  Forall (fun line => gpio_label s !! line = None) lcd_lines.*1 →
  eval req_gpio s = 0.
Proof.
  intros Hfree. unfold eval. rewrite req_gpio_granted by done.
  exact (proj1 (configure_outputs_run (granted lcd_lines s))).
Qed.

Lemma req_gpio_zero_free s :
  eval req_gpio s = 0 →
  Forall (fun line => gpio_label s !! line = None) lcd_lines.*1.
Proof.
  intros Hret.
  destruct (free_or_taken lcd_lines s)
    as [Hfree|(pre & line & label & post & Hsplit & Hfree & Hbusy)]; [done|].
  unfold eval in Hret.
  rewrite (req_gpio_refused s pre line label post) in Hret by done.
  discriminate Hret.
Qed.

(** C9: when [req_gpio] returns 0, each of the seven lines is owned under
    its label and has been made an output driven low, by one
    [gpio_direction_output(line, 0)] per line after the last request. *)
Theorem req_gpio_success_outputs (s : state) :
  eval req_gpio s = 0 →
  Forall (fun '(line, label) =>
            gpio_label (exec req_gpio s) !! line = Some label
            ∧ gpio_dir (exec req_gpio s) !! line = Some DirOut
            ∧ gpio_level (exec req_gpio s) !! line = Some false)
    lcd_lines
  ∧ events req_gpio s =
      ((fun '(line, label) => GpioRequest line label 0) <$> lcd_lines)
      ++ ((fun '(line, _) => GpioDirectionOutput line 0) <$> lcd_lines).
Proof.
  intros Hfree%req_gpio_zero_free.
  pose proof (req_gpio_granted_exec s Hfree) as Hrun.
  destruct (configure_outputs_run (granted lcd_lines s))
    as (_ & Hlabel & Hdir & Hlevel & Hlog & _).
  split.
  - rewrite Hrun, Hlabel, Hdir, Hlevel.
    repeat (apply Forall_cons; split;
      [split_and!;
        [by apply granted_label_in; [apply lcd_lines_NoDup|compute_done]
        |by rewrite ?lookup_insert_ne by done; rewrite lookup_insert_eq
        |by rewrite ?lookup_insert_ne by done; rewrite lookup_insert_eq]|]).
    apply Forall_nil_2.
  - rewrite (events_of_log req_gpio s
             (rev (((fun '(line, label) => GpioRequest line label 0) <$> lcd_lines)
                   ++ ((fun '(line, _) => GpioDirectionOutput line 0) <$> lcd_lines)))).
    + apply rev_involutive.
    + rewrite Hrun, Hlog, granted_log, rev_app_distr. by rewrite <- app_assoc.
Qed.

Lemma req_gpio_success_outputs_witness :
  eval req_gpio free_board = 0
  ∧ gpio_dir (exec req_gpio free_board) !! 18 = Some DirOut
  ∧ gpio_level (exec req_gpio free_board) !! 18 = Some false.
Proof.
  assert (eval req_gpio free_board = 0) as Hret by (vm_compute; reflexivity).
  split; [exact Hret|].
  destruct (req_gpio_success_outputs free_board Hret) as [Hall _].
  do 2 apply Forall_cons in Hall as [_ Hall].
  apply Forall_cons in Hall as [(_ & Hdir & Hlevel) _]. by split.
Defined.

(** ** [rpigpio_lcd_minit] *)

Lemma minit_registered s :
  registration_granted s →
  rpigpio_lcd_minit s =
  (r <- req_gpio ;;
   if r <? 0 then
     class_destroy (class_ret (env s)) ;;
     unregister_chrdev (chrdev_ret (env s)) "lcd_gpio" ;;
     ret (PTR_ERR (device_ret (env s)))
   else
     lcd_init ;; spin_lock_init ;; ret 0) (registered s).
Proof.
  intros (Hmjr & Hcls & Hdev).
  unfold rpigpio_lcd_minit.
  unfold bind at 1 2 3 4 5. unfold printk, modify, gets.
  unfold register_chrdev. cbn [env emit]. rewrite Hmjr.
  cbn [lcd_mjr lcd set_lcd set_mjr set_chrdevs emit]. rewrite Hmjr.
  unfold bind at 1 2 3. unfold class_create, modify, gets.
  cbn [env emit set_lcd set_chrdevs]. rewrite Hcls.
  cbn [lcd_class lcd set_lcd set_class set_classes]. rewrite Hcls.
  unfold bind at 1 2. unfold class_set_devnode, modify, device_create.
  cbn [env emit set_lcd set_chrdevs set_classes classes]. rewrite Hdev.
  rewrite lookup_insert_eq, Hdev.
  reflexivity.
Qed.

Lemma registered_frame s :
  gpio_label (registered s) = gpio_label s
  ∧ lock (lcd (registered s)) = lock (lcd s)
  ∧ log (registered s) = rev (registration_events (env s)) ++ log s.
Proof. split_and!; reflexivity. Qed.

Lemma registered_devnodes s :
  devnodes (registered s) =
  <[MKDEV (chrdev_ret (env s)) 0 := ("lcd"%string, 438)]> (devnodes s).
Proof. reflexivity. Qed.

Lemma init_tail_run s :
  eval (lcd_init ;; spin_lock_init ;; ret 0) s = 0
  ∧ log (exec (lcd_init ;; spin_lock_init ;; ret 0) s) =
      SpinLockInit :: rev lcd_init_events ++ log s
  ∧ lock (lcd (exec (lcd_init ;; spin_lock_init ;; ret 0) s)) =
      {| initialised := true; locked := false |}.
Proof. split_and!; reflexivity. Qed.

Lemma req_gpio_granted_frame s :
  Forall (fun line => gpio_label s !! line = None) lcd_lines.*1 →
  log (exec req_gpio s) = rev req_gpio_events ++ log s
  ∧ lcd (exec req_gpio s) = lcd s.
Proof.
  intros Hfree. rewrite (req_gpio_granted_exec s Hfree).
  destruct (configure_outputs_run (granted lcd_lines s))
    as (_ & _ & _ & _ & Hlog & Hlcd).
  split.
  - rewrite Hlog, granted_log. unfold req_gpio_events.
    by rewrite rev_app_distr, <- app_assoc.
  - rewrite Hlcd. apply granted_frame.
Qed.

(** C10: when module init goes through, [lcd_init] takes and drops
    [lcd.lock] before [spin_lock_init] has run on it: in the kernel calls
    of [rpigpio_lcd_minit], [spin_lock_init] comes last, after the device
    node was created, the lines were requested, and the whole of
    [lcd_init] (which starts with [spin_lock] and ends with [spin_unlock])
    ran on the lock as it was found at entry. *)
Theorem minit_locks_before_lock_init (s : state) :
  registration_granted s →
  lines_free s →
  eval rpigpio_lcd_minit s = 0
  ∧ events rpigpio_lcd_minit s =
      registration_events (env s) ++ req_gpio_events ++ lcd_init_events
      ++ [SpinLockInit]
  ∧ (SpinLockInit ∉ registration_events (env s) ++ req_gpio_events ++ lcd_init_events)
  ∧ head lcd_init_events = Some SpinLock
  ∧ last lcd_init_events = Some SpinUnlock
  ∧ last (registration_events (env s)) =
      Some (DeviceCreate (class_ret (env s)) (MKDEV (chrdev_ret (env s)) 0)
              "lcd" (device_ret (env s)))
  ∧ devnodes (registered s) !! MKDEV (chrdev_ret (env s)) 0
    = Some ("lcd"%string, 438)
  ∧ lock (lcd (exec req_gpio (registered s))) = lock (lcd s).
Proof.
  intros Hreg Hfree. unfold lines_free in Hfree.
  assert (Forall (fun line => gpio_label (registered s) !! line = None)
            lcd_lines.*1) as Hfree' by exact Hfree.
  destruct (req_gpio_granted_frame _ Hfree') as [Hlog Hlcd].
  destruct (init_tail_run (exec req_gpio (registered s))) as (Hret & Htail & _).
  assert (rpigpio_lcd_minit s =
          (lcd_init ;; spin_lock_init ;; ret 0) (exec req_gpio (registered s)))
    as Hrun.
  { rewrite (minit_registered s Hreg), bind_if_negative.
    by rewrite (req_gpio_succeeds _ Hfree'). }
  split_and!.
  - unfold eval. rewrite Hrun. exact Hret.
  - rewrite (events_of_log rpigpio_lcd_minit s
               (rev (registration_events (env s) ++ req_gpio_events
                     ++ lcd_init_events ++ [SpinLockInit]))).
    + apply rev_involutive.
    + unfold exec at 1. rewrite Hrun. unfold exec at 1 in Htail.
      rewrite Htail, Hlog. destruct (registered_frame s) as (_ & _ & ->).
      rewrite !rev_app_distr. cbn [rev app]. by rewrite <- !app_assoc.
  - rewrite !not_elem_of_app. split_and!.
    + unfold registration_events.
      repeat (apply not_elem_of_cons; split; [discriminate|]). apply not_elem_of_nil.
    + vm_compute.
      repeat (apply not_elem_of_cons; split; [discriminate|]). apply not_elem_of_nil.
    + vm_compute.
      repeat (apply not_elem_of_cons; split; [discriminate|]). apply not_elem_of_nil.
  - reflexivity.
  - reflexivity.
  - reflexivity.
  - rewrite registered_devnodes. apply lookup_insert_eq.
  - rewrite Hlcd. apply registered_frame.
Qed.

Lemma minit_locks_before_lock_init_witness :
  registration_granted free_board
  ∧ eval rpigpio_lcd_minit free_board = 0
  ∧ events rpigpio_lcd_minit free_board =
      registration_events granting ++ req_gpio_events ++ lcd_init_events
      ++ [SpinLockInit].
Proof.
  assert (registration_granted free_board) as Hreg by (by split_and!).
  assert (lines_free free_board) as Hfree
    by (repeat (apply Forall_cons; split; [apply lookup_empty|]);
        apply Forall_nil_2).
  split; [exact Hreg|].
  destruct (minit_locks_before_lock_init free_board Hreg Hfree)
    as (Hret & Hevents & _).
  by split.
Defined.

(** Error path of module init after a refused line: the class and the
    character device are undone, the device is not. *)
Lemma minit_undo_run (cls mjr dev : Z) (s : state) :
  eval (class_destroy cls ;; unregister_chrdev mjr "lcd_gpio" ;; ret dev) s = dev
  ∧ devnodes (exec (class_destroy cls ;; unregister_chrdev mjr "lcd_gpio" ;; ret dev) s)
    = devnodes s
  ∧ gpio_label (exec (class_destroy cls ;; unregister_chrdev mjr "lcd_gpio" ;; ret dev) s)
    = gpio_label s
  ∧ log (exec (class_destroy cls ;; unregister_chrdev mjr "lcd_gpio" ;; ret dev) s)
    = UnregisterChrdev mjr "lcd_gpio" :: ClassDestroy cls :: log s.
Proof. split_and!; reflexivity. Qed.

(** Whatever line is refused, module init returns with the device node
    [lcd] still there. *)
Lemma minit_refused_leaves_node s pre line label post :
  registration_granted s →
  lcd_lines = pre ++ (line, label) :: post →
  Forall (fun x => gpio_label s !! x = None) pre.*1 →
  is_Some (gpio_label s !! line) →
  eval rpigpio_lcd_minit s = PTR_ERR (device_ret (env s))
  ∧ devnodes (exec rpigpio_lcd_minit s) !! MKDEV (chrdev_ret (env s)) 0
    = Some ("lcd"%string, 438)
  ∧ events rpigpio_lcd_minit s =
      registration_events (env s)
      ++ ((fun '(l, n) => GpioRequest l n 0) <$> pre)
      ++ [GpioRequest line label (- EBUSY); Printk (request_failure label);
          ClassDestroy (class_ret (env s));
          UnregisterChrdev (chrdev_ret (env s)) "lcd_gpio"].
Proof.
  intros Hreg Hsplit Hfree Hbusy.
  assert (Forall (fun x => gpio_label (registered s) !! x = None) pre.*1)
    as Hfree' by exact Hfree.
  assert (is_Some (gpio_label (registered s) !! line)) as Hbusy' by exact Hbusy.
  pose proof (req_gpio_refused _ pre line label post Hsplit Hfree' Hbusy') as Hreq.
  assert (rpigpio_lcd_minit s =
          (class_destroy (class_ret (env s)) ;;
           unregister_chrdev (chrdev_ret (env s)) "lcd_gpio" ;;
           ret (PTR_ERR (device_ret (env s)))) (exec req_gpio (registered s)))
    as Hrun.
  { rewrite (minit_registered s Hreg), bind_if_negative.
    unfold eval at 1. by rewrite Hreq. }
  destruct (minit_undo_run (class_ret (env s)) (chrdev_ret (env s))
              (PTR_ERR (device_ret (env s))) (exec req_gpio (registered s)))
    as (Hret & Hnodes & _ & Hlog).
  split_and!.
  - unfold eval at 1. rewrite Hrun. exact Hret.
  - unfold exec at 1. rewrite Hrun. unfold exec at 1 in Hnodes. rewrite Hnodes.
    unfold exec. rewrite Hreq. cbn [snd emit devnodes].
    destruct (granted_frame pre (registered s)) as (_ & _ & -> & _).
    by rewrite registered_devnodes, lookup_insert_eq.
  - rewrite (events_of_log rpigpio_lcd_minit s
               (rev (registration_events (env s)
                     ++ ((fun '(l, n) => GpioRequest l n 0) <$> pre)
                     ++ [GpioRequest line label (- EBUSY);
                         Printk (request_failure label);
                         ClassDestroy (class_ret (env s));
                         UnregisterChrdev (chrdev_ret (env s)) "lcd_gpio"]))).
    + apply rev_involutive.
    + unfold exec at 1. rewrite Hrun. unfold exec at 1 in Hlog. rewrite Hlog.
      unfold exec. rewrite Hreq. cbn [snd emit log]. rewrite granted_log.
      destruct (registered_frame s) as (_ & _ & ->).
      rewrite !rev_app_distr. cbn [rev app]. by rewrite <- !app_assoc.
Qed.

(** C2, at a machine where the kernel grants the registrations (major 250)
    and the enable line is taken: [rpigpio_lcd_minit] destroys the class
    and unregisters the character device, but never calls
    [device_destroy]; it returns with the node [lcd] (mode 0666) still in
    place and lines 4 and 17 still owned, and its result is [PTR_ERR] of
    the valid device pointer. *)
Theorem minit_enable_taken_leaves_node :
  eval rpigpio_lcd_minit enable_taken = device_ret granting
  ∧ IS_ERR (device_ret granting) = false
  ∧ devnodes (exec rpigpio_lcd_minit enable_taken) !! MKDEV 250 0
    = Some ("lcd"%string, 438)
  ∧ classes (exec rpigpio_lcd_minit enable_taken) = ∅
  ∧ chrdevs (exec rpigpio_lcd_minit enable_taken) = ∅
  ∧ gpio_label (exec rpigpio_lcd_minit enable_taken) !! 4 = Some "RS"%string
  ∧ gpio_label (exec rpigpio_lcd_minit enable_taken) !! 17 = Some "RW"%string
  ∧ events rpigpio_lcd_minit enable_taken =
      [ Printk "GPIO LCD Driver"; Printk "By: Tony Provencal";
        RegisterChrdev 0 "gpio_lcd" 250;
        ClassCreate "lcd_class" (-1073737728);
        DeviceCreate (-1073737728) 262144000 "lcd" (-1073733632);
        GpioRequest 4 "RS" 0; GpioRequest 17 "RW" 0; GpioRequest 18 "E" (-16);
        Printk "GPIO request failure: E";
        ClassDestroy (-1073737728); UnregisterChrdev 250 "lcd_gpio" ].
Proof. vm_compute. by split_and!. Qed.

(** The sibling path: module exit does destroy the device before the
    class. *)
Lemma mcleanup_destroys_node s :
  devnodes (exec rpigpio_lcd_mcleanup s) !! MKDEV (lcd_mjr (lcd s)) 0 = None.
Proof. unfold rpigpio_lcd_mcleanup, lcd_write. run. apply lookup_delete_eq. Qed.

(** ** Field by field *)

Lemma emit_frame e s :
  log (emit e s) = e :: log s
  ∧ gpio_label (emit e s) = gpio_label s
  ∧ chrdevs (emit e s) = chrdevs s
  ∧ classes (emit e s) = classes s
  ∧ devnodes (emit e s) = devnodes s.
Proof. split_and!; reflexivity. Qed.

(** ** Module init: the registrations that fail *)

Lemma minit_chrdev_refused_run s :
  (chrdev_ret (env s) <? 0) = true →
  rpigpio_lcd_minit s =
  (chrdev_ret (env s),
   emit (Printk "Cannot register char device")
     (set_lcd (set_mjr (chrdev_ret (env s)))
        (emit (RegisterChrdev 0 "gpio_lcd" (chrdev_ret (env s)))
           (emit (Printk "By: Tony Provencal")
              (emit (Printk "GPIO LCD Driver") s))))).
Proof.
  intros Hmjr. unfold rpigpio_lcd_minit.
  unfold bind at 1 2 3 4 5. unfold printk, modify, gets.
  unfold register_chrdev. cbn [env emit]. rewrite Hmjr.
  cbn [lcd_mjr lcd set_lcd set_mjr emit]. rewrite Hmjr.
  reflexivity.
Qed.

(** X1: when [register_chrdev] fails, module init logs it and returns the
    negative result at once: nothing is registered, no class or device
    node is created, no line is requested. *)
Theorem minit_chrdev_refused (s : state) :
  (chrdev_ret (env s) <? 0) = true →
  eval rpigpio_lcd_minit s = chrdev_ret (env s)
  ∧ events rpigpio_lcd_minit s =
      [ Printk "GPIO LCD Driver"; Printk "By: Tony Provencal";
        RegisterChrdev 0 "gpio_lcd" (chrdev_ret (env s));
        Printk "Cannot register char device" ]
  ∧ chrdevs (exec rpigpio_lcd_minit s) = chrdevs s
  ∧ classes (exec rpigpio_lcd_minit s) = classes s
  ∧ devnodes (exec rpigpio_lcd_minit s) = devnodes s
  ∧ gpio_label (exec rpigpio_lcd_minit s) = gpio_label s.
Proof.
  intros Hrun%minit_chrdev_refused_run. split_and!.
  - unfold eval. by rewrite Hrun.
  - apply (events_of_log _ _ [_; _; _; _]). unfold exec. by rewrite Hrun.
  - unfold exec. by rewrite Hrun.
  - unfold exec. by rewrite Hrun.
  - unfold exec. by rewrite Hrun.
  - unfold exec. by rewrite Hrun.
Qed.

Lemma minit_chrdev_refused_witness :
  (chrdev_ret (env (boot chrdev_refusing ∅)) <? 0) = true
  ∧ eval rpigpio_lcd_minit (boot chrdev_refusing ∅) = -16.
Proof.
  assert ((chrdev_ret (env (boot chrdev_refusing ∅)) <? 0) = true) as H
    by reflexivity.
  split; [exact H|].
  exact (proj1 (minit_chrdev_refused _ H)).
Defined.

Lemma minit_class_refused_run s :
  (chrdev_ret (env s) <? 0) = false →
  IS_ERR (class_ret (env s)) = true →
  rpigpio_lcd_minit s =
  (PTR_ERR (class_ret (env s)),
   set_chrdevs (delete (chrdev_ret (env s)))
     (emit (UnregisterChrdev (chrdev_ret (env s)) "lcd_gpio")
        (set_lcd (set_class (class_ret (env s)))
           (emit (ClassCreate "lcd_class" (class_ret (env s)))
              (set_lcd (set_mjr (chrdev_ret (env s)))
                 (set_chrdevs (insert (chrdev_ret (env s)) "gpio_lcd"%string)
                    (emit (RegisterChrdev 0 "gpio_lcd" (chrdev_ret (env s)))
                       (emit (Printk "By: Tony Provencal")
                          (emit (Printk "GPIO LCD Driver") s))))))))).
Proof.
  intros Hmjr Hcls. unfold rpigpio_lcd_minit.
  unfold bind at 1 2 3 4 5. unfold printk, modify, gets.
  unfold register_chrdev. cbn [env emit]. rewrite Hmjr.
  cbn [lcd_mjr lcd set_lcd set_mjr set_chrdevs emit]. rewrite Hmjr.
  unfold bind at 1 2 3. unfold class_create, modify, gets.
  cbn [env emit set_lcd set_chrdevs]. rewrite Hcls.
  cbn [lcd_class lcd set_lcd set_class]. rewrite Hcls.
  reflexivity.
Qed.

(** X2: when [class_create] fails, module init unregisters the character
    device it had just registered and returns the errno of the class
    pointer; no class or device node exists afterwards and no line is
    requested. *)
Theorem minit_class_refused (s : state) :
  (chrdev_ret (env s) <? 0) = false →
  IS_ERR (class_ret (env s)) = true →
  eval rpigpio_lcd_minit s = class_ret (env s)
  ∧ events rpigpio_lcd_minit s =
      [ Printk "GPIO LCD Driver"; Printk "By: Tony Provencal";
        RegisterChrdev 0 "gpio_lcd" (chrdev_ret (env s));
        ClassCreate "lcd_class" (class_ret (env s));
        UnregisterChrdev (chrdev_ret (env s)) "lcd_gpio" ]
  ∧ chrdevs (exec rpigpio_lcd_minit s) = delete (chrdev_ret (env s)) (chrdevs s)
  ∧ classes (exec rpigpio_lcd_minit s) = classes s
  ∧ devnodes (exec rpigpio_lcd_minit s) = devnodes s
  ∧ gpio_label (exec rpigpio_lcd_minit s) = gpio_label s.
Proof.
  intros Hmjr Hcls.
  pose proof (minit_class_refused_run s Hmjr Hcls) as Hrun. split_and!.
  - unfold eval. by rewrite Hrun.
  - apply (events_of_log _ _ [_; _; _; _; _]). unfold exec. by rewrite Hrun.
  - unfold exec. rewrite Hrun. cbn [snd chrdevs set_chrdevs emit set_lcd].
    apply delete_insert_eq.
  - unfold exec. by rewrite Hrun.
  - unfold exec. by rewrite Hrun.
  - unfold exec. by rewrite Hrun.
Qed.

Lemma minit_class_refused_witness :
  IS_ERR (class_ret (env (boot class_refusing ∅))) = true
  ∧ eval rpigpio_lcd_minit (boot class_refusing ∅) = -12
  ∧ chrdevs (exec rpigpio_lcd_minit (boot class_refusing ∅)) = delete 250 ∅.
Proof.
  assert ((chrdev_ret (env (boot class_refusing ∅)) <? 0) = false) as Hmjr
    by reflexivity.
  assert (IS_ERR (class_ret (env (boot class_refusing ∅))) = true) as Hcls
    by reflexivity.
  split; [exact Hcls|].
  destruct (minit_class_refused _ Hmjr Hcls) as (Hret & _ & Hdevs & _).
  by split.
Defined.

Lemma minit_device_refused_run s :
  (chrdev_ret (env s) <? 0) = false →
  IS_ERR (class_ret (env s)) = false →
  IS_ERR (device_ret (env s)) = true →
  rpigpio_lcd_minit s =
  (PTR_ERR (device_ret (env s)),
   set_chrdevs (delete (chrdev_ret (env s)))
     (emit (UnregisterChrdev (chrdev_ret (env s)) "lcd_gpio")
        (set_classes (delete (class_ret (env s)))
           (emit (ClassDestroy (class_ret (env s)))
              (emit (DeviceCreate (class_ret (env s))
                       (MKDEV (chrdev_ret (env s)) 0) "lcd" (device_ret (env s)))
                 (set_classes (insert (class_ret (env s)) true)
                    (set_lcd (set_class (class_ret (env s)))
                       (set_classes (insert (class_ret (env s)) false)
                          (emit (ClassCreate "lcd_class" (class_ret (env s)))
                             (set_lcd (set_mjr (chrdev_ret (env s)))
                                (set_chrdevs
                                   (insert (chrdev_ret (env s)) "gpio_lcd"%string)
                                   (emit (RegisterChrdev 0 "gpio_lcd"
                                            (chrdev_ret (env s)))
                                      (emit (Printk "By: Tony Provencal")
                                         (emit (Printk "GPIO LCD Driver")
                                            s)))))))))))))).
Proof.
  intros Hmjr Hcls Hdev. unfold rpigpio_lcd_minit.
  unfold bind at 1 2 3 4 5. unfold printk, modify, gets.
  unfold register_chrdev. cbn [env emit]. rewrite Hmjr.
  cbn [lcd_mjr lcd set_lcd set_mjr set_chrdevs emit]. rewrite Hmjr.
  unfold bind at 1 2 3. unfold class_create, modify, gets.
  cbn [env emit set_lcd set_chrdevs]. rewrite Hcls.
  cbn [lcd_class lcd set_lcd set_class set_classes]. rewrite Hcls.
  unfold bind at 1 2. unfold class_set_devnode, modify, device_create.
  cbn [env emit set_lcd set_chrdevs set_classes classes]. rewrite !Hdev.
  reflexivity.
Qed.

(** X3: when [device_create] fails, module init destroys the class,
    unregisters the character device and returns the errno of the device
    pointer, a value in -4095..-1; no device node was created and no line
    is requested. *)
Theorem minit_device_refused (s : state) :
  (chrdev_ret (env s) <? 0) = false →
  IS_ERR (class_ret (env s)) = false →
  IS_ERR (device_ret (env s)) = true →
  eval rpigpio_lcd_minit s = device_ret (env s)
  ∧ - MAX_ERRNO ≤ eval rpigpio_lcd_minit s < 0
  ∧ events rpigpio_lcd_minit s =
      [ Printk "GPIO LCD Driver"; Printk "By: Tony Provencal";
        RegisterChrdev 0 "gpio_lcd" (chrdev_ret (env s));
        ClassCreate "lcd_class" (class_ret (env s));
        DeviceCreate (class_ret (env s)) (MKDEV (chrdev_ret (env s)) 0) "lcd"
          (device_ret (env s));
        ClassDestroy (class_ret (env s));
        UnregisterChrdev (chrdev_ret (env s)) "lcd_gpio" ]
  ∧ chrdevs (exec rpigpio_lcd_minit s) = delete (chrdev_ret (env s)) (chrdevs s)
  ∧ classes (exec rpigpio_lcd_minit s) = delete (class_ret (env s)) (classes s)
  ∧ devnodes (exec rpigpio_lcd_minit s) = devnodes s
  ∧ gpio_label (exec rpigpio_lcd_minit s) = gpio_label s.
Proof.
  intros Hmjr Hcls Hdev.
  pose proof (minit_device_refused_run s Hmjr Hcls Hdev) as Hrun.
  assert (eval rpigpio_lcd_minit s = device_ret (env s)) as Hret
    by (unfold eval; by rewrite Hrun).
  split_and!.
  - exact Hret.
  - rewrite Hret. unfold IS_ERR in Hdev. lia.
  - rewrite Hret. unfold IS_ERR in Hdev. lia.
  - apply (events_of_log _ _ [_; _; _; _; _; _; _]). unfold exec. by rewrite Hrun.
  - unfold exec. rewrite Hrun.
    cbn [snd chrdevs set_chrdevs set_classes emit set_lcd].
    apply delete_insert_eq.
  - unfold exec. rewrite Hrun.
    cbn [snd classes set_chrdevs set_classes emit set_lcd].
    by rewrite !delete_insert_eq.
  - unfold exec. by rewrite Hrun.
  - unfold exec. by rewrite Hrun.
Qed.

Lemma minit_device_refused_witness :
  IS_ERR (device_ret (env (boot device_refusing ∅))) = true
  ∧ eval rpigpio_lcd_minit (boot device_refusing ∅) = -12.
Proof.
  assert ((chrdev_ret (env (boot device_refusing ∅)) <? 0) = false) as Hmjr
    by reflexivity.
  assert (IS_ERR (class_ret (env (boot device_refusing ∅))) = false) as Hcls
    by reflexivity.
  assert (IS_ERR (device_ret (env (boot device_refusing ∅))) = true) as Hdev
    by reflexivity.
  split; [exact Hdev|].
  exact (proj1 (minit_device_refused _ Hmjr Hcls Hdev)).
Defined.

(** ** More on [req_gpio] *)

Lemma taken_not_free s pre line label post :
  lcd_lines = pre ++ (line, label) :: post →
  is_Some (gpio_label s !! line) →
  ¬ lines_free s.
Proof.
  intros Hsplit [owner Howner] Hfree. unfold lines_free in Hfree.
  rewrite Forall_forall in Hfree.
  assert (line ∈ lcd_lines.*1) as Hin.
  { rewrite Hsplit, fmap_app. apply elem_of_app. right. cbn. by left. }
  specialize (Hfree line Hin). congruence.
Qed.

(** X4: [req_gpio] returns 0 exactly when all seven lines are free at
    entry, and -1 in every other case. *)
Theorem req_gpio_result (s : state) :
  (eval req_gpio s = 0 ∧ lines_free s)
  ∨ (eval req_gpio s = -1 ∧ ¬ lines_free s).
Proof.
  destruct (free_or_taken lcd_lines s)
    as [Hfree|(pre & line & label & post & Hsplit & Hfree & Hbusy)].
  - left. split; [by apply req_gpio_succeeds|done].
  - right. split; [|by eapply taken_not_free].
    unfold eval. by rewrite (req_gpio_refused s pre line label post).
Qed.

Lemma granted_lines_label s :
  gpio_label (granted lcd_lines s) =
  <[25:="DB7"%string]> (<[24:="DB6"%string]> (<[23:="DB5"%string]>
    (<[22:="DB4"%string]> (<[18:="E"%string]> (<[17:="RW"%string]>
      (<[4:="RS"%string]> (gpio_label s))))))).
Proof. reflexivity. Qed.

Lemma req_gpio_granted_label s :
  lines_free s →
  gpio_label (exec req_gpio s) =
  <[25:="DB7"%string]> (<[24:="DB6"%string]> (<[23:="DB5"%string]>
    (<[22:="DB4"%string]> (<[18:="E"%string]> (<[17:="RW"%string]>
      (<[4:="RS"%string]> (gpio_label s))))))).
Proof.
  intros Hfree. rewrite (req_gpio_granted_exec s Hfree).
  destruct (configure_outputs_run (granted lcd_lines s)) as (_ & -> & _).
  apply granted_lines_label.
Qed.

Lemma granted_nil s : granted [] s = s.
Proof. reflexivity. Qed.

(** X5: [req_gpio] cannot be repeated: called again after it succeeded,
    it is refused its own first line (4, owned as RS), returns -1 and
    leaves the ownership of every line as it was. *)
Theorem req_gpio_twice (s : state) :
  lines_free s →
  eval req_gpio (exec req_gpio s) = -1
  ∧ events req_gpio (exec req_gpio s) =
      [GpioRequest 4 "RS" (- EBUSY); Printk "GPIO request failure: RS"]
  ∧ gpio_label (exec req_gpio (exec req_gpio s)) = gpio_label (exec req_gpio s).
Proof.
  intros Hfree.
  assert (is_Some (gpio_label (exec req_gpio s) !! 4)) as Hbusy.
  { exists "RS"%string. rewrite (req_gpio_granted_label s Hfree).
    by rewrite !lookup_insert_ne by done; rewrite lookup_insert_eq. }
  pose proof (req_gpio_refused (exec req_gpio s) [] 4 "RS"%string
                (tail lcd_lines) eq_refl (Forall_nil_2 _) Hbusy) as Hrun.
  rewrite granted_nil in Hrun.
  split_and!.
  - unfold eval at 1. by rewrite Hrun.
  - apply (events_of_log _ _ [_; _]). unfold exec at 1. rewrite Hrun.
    cbn [snd]. destruct (emit_frame (Printk (request_failure "RS"))
      (emit (GpioRequest 4 "RS" (- EBUSY)) (exec req_gpio s))) as (-> & _).
    by destruct (emit_frame (GpioRequest 4 "RS" (- EBUSY)) (exec req_gpio s))
      as (-> & _).
  - unfold exec at 1. rewrite Hrun. cbn [snd].
    destruct (emit_frame (Printk (request_failure "RS"))
      (emit (GpioRequest 4 "RS" (- EBUSY)) (exec req_gpio s))) as (_ & -> & _).
    by destruct (emit_frame (GpioRequest 4 "RS" (- EBUSY)) (exec req_gpio s))
      as (_ & -> & _).
Qed.

Lemma req_gpio_twice_witness :
  lines_free free_board
  ∧ eval req_gpio (exec req_gpio free_board) = -1.
Proof.
  assert (lines_free free_board) as Hfree
    by (repeat (apply Forall_cons; split; [apply lookup_empty|]);
        apply Forall_nil_2).
  split; [exact Hfree|].
  exact (proj1 (req_gpio_twice free_board Hfree)).
Defined.

Lemma lcd_release_label s :
  gpio_label (exec lcd_release s) =
  delete 25 (delete 24 (delete 23 (delete 22 (delete 18 (delete 17
    (delete 4 (gpio_label s))))))).
Proof. reflexivity. Qed.

(** X6: acquire then close is a round trip on line ownership: from a
    state where the seven lines are free, [req_gpio] followed by
    [lcd_release] leaves every line of the machine owned exactly as
    before. *)
Theorem req_gpio_release_round_trip (s : state) :
  lines_free s →
  gpio_label (exec lcd_release (exec req_gpio s)) = gpio_label s.
Proof.
  intros Hfree. rewrite lcd_release_label, (req_gpio_granted_label s Hfree).
  unfold lines_free in Hfree. cbn in Hfree.
  repeat (apply Forall_cons in Hfree as [? Hfree]).
  rewrite !(delete_insert_ne _ 4) by done. rewrite (delete_insert_id _ 4) by done.
  rewrite !(delete_insert_ne _ 17) by done. rewrite (delete_insert_id _ 17) by done.
  rewrite !(delete_insert_ne _ 18) by done. rewrite (delete_insert_id _ 18) by done.
  rewrite !(delete_insert_ne _ 22) by done. rewrite (delete_insert_id _ 22) by done.
  rewrite !(delete_insert_ne _ 23) by done. rewrite (delete_insert_id _ 23) by done.
  rewrite !(delete_insert_ne _ 24) by done. rewrite (delete_insert_id _ 24) by done.
  by rewrite (delete_insert_id _ 25).
Qed.

Lemma req_gpio_release_round_trip_witness :
  lines_free free_board
  ∧ gpio_label (exec lcd_release (exec req_gpio free_board)) = ∅.
Proof.
  assert (lines_free free_board) as Hfree
    by (repeat (apply Forall_cons; split; [apply lookup_empty|]);
        apply Forall_nil_2).
  split; [exact Hfree|].
  exact (req_gpio_release_round_trip free_board Hfree).
Defined.

(** ** More on [lcd_write] and [lcd_init] *)

(** X7: when [lcd_write] returns, DB7..DB4 are left at the levels of the
    low nibble ([data[4..7]]) and E is low. *)
Theorem lcd_write_final_levels (data : list Z) (s : state) :
  gpio_level (exec (lcd_write data) s) !! 25 = Some (high (at_index data 4))
  ∧ gpio_level (exec (lcd_write data) s) !! 24 = Some (high (at_index data 5))
  ∧ gpio_level (exec (lcd_write data) s) !! 23 = Some (high (at_index data 6))
  ∧ gpio_level (exec (lcd_write data) s) !! 22 = Some (high (at_index data 7))
  ∧ gpio_level (exec (lcd_write data) s) !! 18 = Some false.
Proof.
  unfold lcd_write. run.
  split_and!; by rewrite ?lookup_insert_ne by done; rewrite lookup_insert_eq.
Qed.

(** X8: [lcd_init] never writes RS before its nine command words: they
    reach the controller with RS at whatever level it has on entry (as
    data if it is high); only the word [a] is sent with RS driven high,
    and RS is low on return whatever it was. *)
Theorem lcd_init_rs_as_found (s : state) :
  latched (bus_of (gpio_level s)) (events lcd_init s) =
    concat (nibbles_of (RS (bus_of (gpio_level s))) <$>
              [reset; startup1; startup2; functionset; displayoff; clear;
               entry; displayon; home])
    ++ nibbles_of true a
  ∧ gpio_level (exec lcd_init s) !! 4 = Some false.
Proof.
  split.
  - rewrite lcd_init_events_eq. generalize (bus_of (gpio_level s)).
    intros [[] rw [] d7 d6 d5 d4]; reflexivity.
  - unfold lcd_init, lcd_write. run. by rewrite lookup_insert_eq.
Qed.

(** X9: [lcd_init] busy-waits at least 122 ms (15 + 3 * 35 ms and ten words
    of 200 us), all of it between its [spin_lock] and its [spin_unlock],
    and returns with the lock dropped. *)
Theorem lcd_init_holds_lock_122ms (s : state) :
  clock (exec lcd_init s) = clock s + 122000
  ∧ (∃ body, events lcd_init s = SpinLock :: body ++ [SpinUnlock]
             ∧ busy_wait body = 122000)
  ∧ locked (lock (lcd (exec lcd_init s))) = false
  ∧ initialised (lock (lcd (exec lcd_init s))) = initialised (lock (lcd s)).
Proof.
  split_and!.
  - unfold lcd_init, lcd_write. run. lia.
  - rewrite lcd_init_events_eq.
    exists (removelast (tail lcd_init_events)). split; reflexivity.
  - reflexivity.
  - reflexivity.
Qed.

(** ** Module exit *)

Lemma mcleanup_fields s :
  log (exec rpigpio_lcd_mcleanup s) = rev (mcleanup_events (lcd s)) ++ log s
  ∧ gpio_label (exec rpigpio_lcd_mcleanup s) =
      delete 25 (delete 24 (delete 23 (delete 22 (delete 18 (delete 17
        (delete 4 (gpio_label s)))))))
  ∧ devnodes (exec rpigpio_lcd_mcleanup s) =
      delete (MKDEV (lcd_mjr (lcd s)) 0) (devnodes s)
  ∧ classes (exec rpigpio_lcd_mcleanup s) = delete (lcd_class (lcd s)) (classes s)
  ∧ chrdevs (exec rpigpio_lcd_mcleanup s) = delete (lcd_mjr (lcd s)) (chrdevs s).
Proof. split_and!; reflexivity. Qed.

(** X10: module exit sends the word [clear] (with RS at the level it has),
    frees the seven lines, and then destroys the device, the class and the
    character-device registration, in this order; it never takes
    [lcd.lock].  Afterwards none of the seven lines is owned and the node,
    the class and the major of [lcd] are gone. *)
Theorem mcleanup_releases_everything (s : state) :
  events rpigpio_lcd_mcleanup s = mcleanup_events (lcd s)
  ∧ (SpinLock ∉ events rpigpio_lcd_mcleanup s)
  ∧ latched (bus_of (gpio_level s)) (events rpigpio_lcd_mcleanup s) =
      nibbles_of (RS (bus_of (gpio_level s))) clear
  ∧ Forall (fun line => gpio_label (exec rpigpio_lcd_mcleanup s) !! line = None)
      lcd_lines.*1
  ∧ devnodes (exec rpigpio_lcd_mcleanup s) !! MKDEV (lcd_mjr (lcd s)) 0 = None
  ∧ classes (exec rpigpio_lcd_mcleanup s) !! lcd_class (lcd s) = None
  ∧ chrdevs (exec rpigpio_lcd_mcleanup s) !! lcd_mjr (lcd s) = None.
Proof.
  destruct (mcleanup_fields s) as (Hlog & Hlabel & Hnodes & Hclasses & Hdevs).
  assert (events rpigpio_lcd_mcleanup s = mcleanup_events (lcd s)) as Hevents.
  { rewrite (events_of_log _ _ _ Hlog). apply rev_involutive. }
  rewrite Hevents, Hlabel, Hnodes, Hclasses, Hdevs. split_and!.
  - reflexivity.
  - unfold mcleanup_events, write_events. cbn [app].
    repeat (apply not_elem_of_cons; split; [discriminate|]). apply not_elem_of_nil.
  - generalize (bus_of (gpio_level s)).
    intros [rs rw [] d7 d6 d5 d4]; reflexivity.
  - repeat (apply Forall_cons; split;
            [by rewrite ?lookup_delete_ne by done; rewrite lookup_delete_eq|]).
    apply Forall_nil_2.
  - apply lookup_delete_eq.
  - apply lookup_delete_eq.
  - apply lookup_delete_eq.
Qed.

(** ** Module init, when everything is granted *)

Lemma minit_granted_run s :
  registration_granted s → lines_free s →
  rpigpio_lcd_minit s =
  (lcd_init ;; spin_lock_init ;; ret 0) (exec req_gpio (registered s)).
Proof.
  intros Hreg Hfree.
  assert (lines_free (registered s)) as Hfree' by exact Hfree.
  rewrite (minit_registered s Hreg), bind_if_negative.
  by rewrite (req_gpio_succeeds _ Hfree').
Qed.

Lemma minit_granted_exec s :
  registration_granted s → lines_free s →
  exec rpigpio_lcd_minit s =
  exec (lcd_init ;; spin_lock_init ;; ret 0) (exec req_gpio (registered s)).
Proof. intros Hreg Hfree. unfold exec at 1 2. by rewrite minit_granted_run. Qed.

Lemma init_tail_fields s :
  chrdevs (exec (lcd_init ;; spin_lock_init ;; ret 0) s) = chrdevs s
  ∧ classes (exec (lcd_init ;; spin_lock_init ;; ret 0) s) = classes s
  ∧ devnodes (exec (lcd_init ;; spin_lock_init ;; ret 0) s) = devnodes s
  ∧ gpio_label (exec (lcd_init ;; spin_lock_init ;; ret 0) s) = gpio_label s
  ∧ gpio_dir (exec (lcd_init ;; spin_lock_init ;; ret 0) s) = gpio_dir s
  ∧ lcd (exec (lcd_init ;; spin_lock_init ;; ret 0) s) =
      {| lcd_mjr := lcd_mjr (lcd s); lcd_class := lcd_class (lcd s);
         lock := {| initialised := true; locked := false |} |}.
Proof. split_and!; reflexivity. Qed.

Lemma init_tail_levels s :
  gpio_level (exec (lcd_init ;; spin_lock_init ;; ret 0) s) !! 4 = Some false
  ∧ gpio_level (exec (lcd_init ;; spin_lock_init ;; ret 0) s) !! 17
    = gpio_level s !! 17
  ∧ gpio_level (exec (lcd_init ;; spin_lock_init ;; ret 0) s) !! 18 = Some false
  ∧ gpio_level (exec (lcd_init ;; spin_lock_init ;; ret 0) s) !! 25 = Some false
  ∧ gpio_level (exec (lcd_init ;; spin_lock_init ;; ret 0) s) !! 24 = Some false
  ∧ gpio_level (exec (lcd_init ;; spin_lock_init ;; ret 0) s) !! 23 = Some false
  ∧ gpio_level (exec (lcd_init ;; spin_lock_init ;; ret 0) s) !! 22 = Some true.
Proof.
  unfold lcd_init, lcd_write. run.
  split_and!; rewrite ?lookup_insert_ne by done;
    try reflexivity; by rewrite lookup_insert_eq.
Qed.

Lemma configure_outputs_frame s :
  chrdevs (exec configure_outputs s) = chrdevs s
  ∧ classes (exec configure_outputs s) = classes s
  ∧ devnodes (exec configure_outputs s) = devnodes s.
Proof. split_and!; reflexivity. Qed.

Lemma granted_registrations ls s :
  chrdevs (granted ls s) = chrdevs s ∧ classes (granted ls s) = classes s.
Proof.
  induction ls as [|[line label] ls IH] using rev_ind; [done|].
  by rewrite granted_snoc.
Qed.

Lemma registered_fields s :
  chrdevs (registered s) =
    <[chrdev_ret (env s) := "gpio_lcd"%string]> (chrdevs s)
  ∧ classes (registered s) =
      <[class_ret (env s) := true]> (<[class_ret (env s) := false]> (classes s))
  ∧ gpio_dir (registered s) = gpio_dir s
  ∧ lcd (registered s) =
      {| lcd_mjr := chrdev_ret (env s); lcd_class := class_ret (env s);
         lock := lock (lcd s) |}.
Proof. split_and!; reflexivity. Qed.

Lemma minit_granted_fields s :
  registration_granted s → lines_free s →
  chrdevs (exec rpigpio_lcd_minit s) =
    <[chrdev_ret (env s) := "gpio_lcd"%string]> (chrdevs s)
  ∧ classes (exec rpigpio_lcd_minit s) =
      <[class_ret (env s) := true]> (classes s)
  ∧ devnodes (exec rpigpio_lcd_minit s) =
      <[MKDEV (chrdev_ret (env s)) 0 := ("lcd"%string, 438)]> (devnodes s)
  ∧ gpio_label (exec rpigpio_lcd_minit s) =
      <[25:="DB7"%string]> (<[24:="DB6"%string]> (<[23:="DB5"%string]>
        (<[22:="DB4"%string]> (<[18:="E"%string]> (<[17:="RW"%string]>
          (<[4:="RS"%string]> (gpio_label s)))))))
  ∧ lcd (exec rpigpio_lcd_minit s) =
      {| lcd_mjr := chrdev_ret (env s); lcd_class := class_ret (env s);
         lock := {| initialised := true; locked := false |} |}.
Proof.
  intros Hreg Hfree.
  assert (lines_free (registered s)) as Hfree' by exact Hfree.
  pose proof (minit_granted_exec s Hreg Hfree) as Hrun.
  destruct (init_tail_fields (exec req_gpio (registered s)))
    as (Hdevs & Hclasses & Hnodes & Hlabel & _ & Hlcd).
  destruct (req_gpio_granted_frame _ Hfree') as [_ Hlcd'].
  destruct (configure_outputs_frame (granted lcd_lines (registered s)))
    as (Hdevs' & Hclasses' & Hnodes').
  destruct (granted_registrations lcd_lines (registered s))
    as (Hdevs'' & Hclasses'').
  destruct (granted_frame lcd_lines (registered s)) as (_ & _ & Hnodes'' & _).
  destruct (registered_fields s) as (Hrdevs & Hrclasses & _ & Hrlcd).
  rewrite Hrun.
  split_and!.
  - rewrite Hdevs, (req_gpio_granted_exec _ Hfree'), Hdevs', Hdevs''.
    exact Hrdevs.
  - rewrite Hclasses, (req_gpio_granted_exec _ Hfree'), Hclasses', Hclasses''.
    rewrite Hrclasses. apply insert_insert_eq.
  - rewrite Hnodes, (req_gpio_granted_exec _ Hfree'), Hnodes', Hnodes''.
    apply registered_devnodes.
  - rewrite Hlabel, (req_gpio_granted_label _ Hfree').
    by destruct (registered_frame s) as (-> & _).
  - rewrite Hlcd, Hlcd', Hrlcd. reflexivity.
Qed.

(** X11: after a module init that was granted everything, the character
    device is registered as gpio_lcd under the major the kernel chose, the
    class carries the devnode callback, the node [lcd] exists with mode
    0666, the seven lines are owned under their labels as outputs, RS, RW
    and E are low, DB7..DB4 still show the low nibble of [a] (0, 0, 0, 1),
    and [lcd.lock] is initialised and free. *)
Theorem minit_success_state (s : state) :
  registration_granted s →
  lines_free s →
  chrdevs (exec rpigpio_lcd_minit s) !! chrdev_ret (env s) = Some "gpio_lcd"%string
  ∧ classes (exec rpigpio_lcd_minit s) !! class_ret (env s) = Some true
  ∧ devnodes (exec rpigpio_lcd_minit s) !! MKDEV (chrdev_ret (env s)) 0
    = Some ("lcd"%string, 438)
  ∧ Forall (fun '(line, label) =>
              gpio_label (exec rpigpio_lcd_minit s) !! line = Some label
              ∧ gpio_dir (exec rpigpio_lcd_minit s) !! line = Some DirOut)
      lcd_lines
  ∧ (gpio_level (exec rpigpio_lcd_minit s) !!.) <$> [4; 17; 18; 25; 24; 23; 22]
    = Some <$> [false; false; false; false; false; false; true]
  ∧ lcd (exec rpigpio_lcd_minit s) =
      {| lcd_mjr := chrdev_ret (env s); lcd_class := class_ret (env s);
         lock := {| initialised := true; locked := false |} |}.
Proof.
  intros Hreg Hfree.
  assert (lines_free (registered s)) as Hfree' by exact Hfree.
  destruct (minit_granted_fields s Hreg Hfree)
    as (Hdevs & Hclasses & Hnodes & Hlabel & Hlcd).
  pose proof (minit_granted_exec s Hreg Hfree) as Hrun.
  destruct (init_tail_fields (exec req_gpio (registered s)))
    as (_ & _ & _ & _ & Hdir & _).
  destruct (init_tail_levels (exec req_gpio (registered s)))
    as (H4 & H17 & H18 & H25 & H24 & H23 & H22).
  destruct (configure_outputs_run (granted lcd_lines (registered s)))
    as (_ & _ & Hdir' & Hlevel' & _).
  rewrite Hdevs, Hclasses, Hnodes, Hlabel, Hlcd.
  split_and!.
  - apply lookup_insert_eq.
  - apply lookup_insert_eq.
  - apply lookup_insert_eq.
  - rewrite Hrun, Hdir, (req_gpio_granted_exec _ Hfree'), Hdir'.
    repeat (apply Forall_cons; split;
      [split; by rewrite ?lookup_insert_ne by done; rewrite lookup_insert_eq|]).
    apply Forall_nil_2.
  - rewrite Hrun. cbn [fmap list_fmap].
    rewrite H4, H17, H18, H25, H24, H23, H22.
    rewrite (req_gpio_granted_exec _ Hfree'), Hlevel'.
    by rewrite !lookup_insert_ne by done; rewrite lookup_insert_eq.
  - reflexivity.
Qed.

Lemma minit_success_state_witness :
  registration_granted free_board
  ∧ lines_free free_board
  ∧ devnodes (exec rpigpio_lcd_minit free_board) !! MKDEV 250 0
    = Some ("lcd"%string, 438).
Proof.
  assert (registration_granted free_board) as Hreg by (by split_and!).
  assert (lines_free free_board) as Hfree
    by (repeat (apply Forall_cons; split; [apply lookup_empty|]);
        apply Forall_nil_2).
  split; [exact Hreg|]. split; [exact Hfree|].
  exact (proj1 (proj2 (proj2 (minit_success_state free_board Hreg Hfree)))).
Defined.

(** X12: load then unload is a round trip on the kernel's tables: if the
    major, the class and the device number handed out were not in use and
    the seven lines were free, then after [rpigpio_lcd_minit] followed by
    [rpigpio_lcd_mcleanup] the registered character devices, classes,
    device nodes and line owners are exactly what they were before. *)
Theorem minit_mcleanup_round_trip (s : state) :
  registration_granted s →
  lines_free s →
  chrdevs s !! chrdev_ret (env s) = None →
  classes s !! class_ret (env s) = None →
  devnodes s !! MKDEV (chrdev_ret (env s)) 0 = None →
  chrdevs (exec rpigpio_lcd_mcleanup (exec rpigpio_lcd_minit s)) = chrdevs s
  ∧ classes (exec rpigpio_lcd_mcleanup (exec rpigpio_lcd_minit s)) = classes s
  ∧ devnodes (exec rpigpio_lcd_mcleanup (exec rpigpio_lcd_minit s)) = devnodes s
  ∧ gpio_label (exec rpigpio_lcd_mcleanup (exec rpigpio_lcd_minit s))
    = gpio_label s.
Proof.
  intros Hreg Hfree Hmjr Hcls Hdevt.
  destruct (minit_granted_fields s Hreg Hfree)
    as (Hdevs & Hclasses & Hnodes & Hlabel & Hlcd).
  destruct (mcleanup_fields (exec rpigpio_lcd_minit s))
    as (_ & -> & -> & -> & ->).
  rewrite Hdevs, Hclasses, Hnodes, Hlabel, Hlcd. cbn [lcd_mjr lcd_class].
  split_and!.
  - by apply delete_insert_id.
  - by apply delete_insert_id.
  - by apply delete_insert_id.
  - unfold lines_free in Hfree. cbn in Hfree.
    repeat (apply Forall_cons in Hfree as [? Hfree]).
    rewrite !(delete_insert_ne _ 4) by done. rewrite (delete_insert_id _ 4) by done.
    rewrite !(delete_insert_ne _ 17) by done. rewrite (delete_insert_id _ 17) by done.
    rewrite !(delete_insert_ne _ 18) by done. rewrite (delete_insert_id _ 18) by done.
    rewrite !(delete_insert_ne _ 22) by done. rewrite (delete_insert_id _ 22) by done.
    rewrite !(delete_insert_ne _ 23) by done. rewrite (delete_insert_id _ 23) by done.
    rewrite !(delete_insert_ne _ 24) by done. rewrite (delete_insert_id _ 24) by done.
    by rewrite (delete_insert_id _ 25).
Qed.

Lemma minit_mcleanup_round_trip_witness :
  registration_granted free_board
  ∧ lines_free free_board
  ∧ devnodes (exec rpigpio_lcd_mcleanup (exec rpigpio_lcd_minit free_board)) = ∅.
Proof.
  assert (registration_granted free_board) as Hreg by (by split_and!).
  assert (lines_free free_board) as Hfree
    by (repeat (apply Forall_cons; split; [apply lookup_empty|]);
        apply Forall_nil_2).
  split; [exact Hreg|]. split; [exact Hfree|].
  exact (proj1 (proj2 (proj2
    (minit_mcleanup_round_trip free_board Hreg Hfree
       (lookup_empty _) (lookup_empty _) (lookup_empty _))))).
Defined.

(** ** Sessions *)

Lemma lcd_fops_frame o s :
  chrdevs (exec (lcd_fops o) s) = chrdevs s
  ∧ classes (exec (lcd_fops o) s) = classes s
  ∧ devnodes (exec (lcd_fops o) s) = devnodes s
  ∧ gpio_dir (exec (lcd_fops o) s) = gpio_dir s
  ∧ gpio_level (exec (lcd_fops o) s) = gpio_level s.
Proof. destruct o; split_and!; reflexivity. Qed.

Lemma lcd_fops_label o s :
  o ≠ FRelease → gpio_label (exec (lcd_fops o) s) = gpio_label s.
Proof. by destruct o. Qed.

Lemma lcd_release_frees s :
  Forall (fun line => gpio_label (exec lcd_release s) !! line = None) lcd_lines.*1.
Proof.
  rewrite lcd_release_label.
  repeat (apply Forall_cons; split;
          [by rewrite ?lookup_delete_ne by done; rewrite lookup_delete_eq|]).
  apply Forall_nil_2.
Qed.

Lemma run_fops_snoc os o s :
  run_fops (os ++ [o]) s = exec (lcd_fops o) (run_fops os s).
Proof. unfold run_fops. by rewrite foldl_snoc. Qed.

(** X13: whatever file operations processes perform, in whatever order, no
    line level or direction changes and the registrations stay as they
    are: nothing a process can do through the node reaches the display.
    And once a close is among them, none of the seven lines is owned at
    the end: no later open takes them back. *)
Theorem file_operations_never_drive (os : list fop) (s : state) :
  gpio_level (run_fops os s) = gpio_level s
  ∧ gpio_dir (run_fops os s) = gpio_dir s
  ∧ devnodes (run_fops os s) = devnodes s
  ∧ classes (run_fops os s) = classes s
  ∧ chrdevs (run_fops os s) = chrdevs s
  ∧ (FRelease ∈ os →
     Forall (fun line => gpio_label (run_fops os s) !! line = None)
       lcd_lines.*1).
Proof.
  induction os as [|o os IH] using rev_ind.
  - split_and!; try reflexivity. by intros ?%elem_of_nil.
  - destruct IH as (Hlevel & Hdir & Hnodes & Hclasses & Hdevs & Hfree).
    rewrite run_fops_snoc.
    destruct (lcd_fops_frame o (run_fops os s)) as (-> & -> & -> & -> & ->).
    split_and!; try done.
    intros Hin.
    assert (o = FRelease ∨ o ≠ FRelease) as [->|Hne]
      by (destruct o; [by right|by left|by right]).
    + apply lcd_release_frees.
    + rewrite (lcd_fops_label o _ Hne). apply Hfree.
      apply elem_of_app in Hin as [Hin|Hin%list_elem_of_singleton]; [done|].
      by subst o.
Qed.

Lemma file_operations_never_drive_witness :
  FRelease ∈ [FOpen; FRelease; FOpen; FIoctl 1 2]
  ∧ Forall (fun line =>
              gpio_label (run_fops [FOpen; FRelease; FOpen; FIoctl 1 2]
                            (exec rpigpio_lcd_minit free_board)) !! line = None)
      lcd_lines.*1.
Proof.
  assert (FRelease ∈ [FOpen; FRelease; FOpen; FIoctl 1 2]) as Hin
    by (right; left).
  split; [exact Hin|].
  exact (proj2 (proj2 (proj2 (proj2 (proj2
    (file_operations_never_drive _ (exec rpigpio_lcd_minit free_board))))))
    Hin).
Defined.
